(** * Mood-Music: the [/generate] request handler of [app.py]

    A shallow embedding of [generate_music] (app.py, lines 35-93) and of the
    start-up block that binds [processor] and [model] (lines 15-29).

    The handler is glue between Flask, the MusicGen model, the clock and the
    file system.  Those collaborators are opaque here: each one is a field of
    the record [Deps] (what the call returns, or the exception it raises), and
    every theorem quantifies over all of them.  What the handler itself does
    (the guard, the two [get]s with their defaults, [int], [duration * 50],
    the file name, the two paths, the catch-all) is written out. *)

From Stdlib Require Import ZArith String Ascii List Lia.
From Stdlib Require Import Floats.SpecFloat.
From stdpp Require Import base option gmap strings.

Local Open Scope string_scope.
Local Open Scope Z_scope.

(** ** Python values that reach the handler *)

Module Py.

(** An exception instance, as far as the handler looks at it: its class (for
    the reader) and [str(e)].  Only subclasses of [Exception] are modelled,
    which is what [except Exception] catches. *)
Record exc : Type := Exc { exc_class : string; exc_str : string }.

(** The result of a call that may raise. *)
Inductive result (A : Type) : Type :=
| Returns (a : A)
| Raises (e : exc).
Arguments Returns {A} a.
Arguments Raises {A} e.

(** What [json.loads] builds: [request.json] and everything reachable from
    it.  A JSON object is a [dict] with [str] keys. *)
#[warnings="-register-all"] Inductive value : Type :=
| VNone
| VBool (b : bool)
| VInt (n : Z)
| VFloat (f : spec_float)
| VStr (s : string)
| VList (l : list value)
| VDict (d : gmap string value).

(** [type(v).__name__] *)
Definition type_name (v : value) : string :=
  match v with
  | VNone => "NoneType"
  | VBool _ => "bool"
  | VInt _ => "int"
  | VFloat _ => "float"
  | VStr _ => "str"
  | VList _ => "list"
  | VDict _ => "dict"
  end.

(** *** [repr] of a [str]

    Strings are sequences of code points below 256.  [repr] picks the quote,
    escapes the backslash, the quote and the non-printable code points. *)

Definition hex_digit (n : N) : ascii :=
  ascii_of_N (if (n <? 10)%N then 48 + n else 87 + n)%N.

Definition printable (c : ascii) : bool :=
  let n := N_of_ascii c in
  ((32 <=? n) && (n <? 127) || (161 <=? n) && negb (n =? 173))%N.

Definition repr_char (quote : ascii) (c : ascii) : string :=
  let n := N_of_ascii c in
  if (n =? 92)%N then "\\"
  else if Ascii.eqb c quote then String "\" (String c "")
  else if (n =? 9)%N then "\t"
  else if (n =? 10)%N then "\n"
  else if (n =? 13)%N then "\r"
  else if printable c then String c ""
  else String "\" (String "x" (String (hex_digit (n / 16)) (String (hex_digit (n mod 16)) ""))).

Fixpoint contains_char (c : ascii) (s : string) : bool :=
  match s with
  | "" => false
  | String a s' => Ascii.eqb a c || contains_char c s'
  end.

Fixpoint repr_body (quote : ascii) (s : string) : string :=
  match s with
  | "" => ""
  | String c s' => repr_char quote c ++ repr_body quote s'
  end.

Definition squote : ascii := "'"%char.
Definition dquote : ascii := ascii_of_N 34.

Definition repr_str (s : string) : string :=
  let quote :=
    if contains_char squote s && negb (contains_char dquote s)
    then dquote else squote in
  String quote (repr_body quote s ++ String quote "").

(** *** [int(v)]

    On a [str]: optional white space, an optional sign, decimal digits with
    single underscores between them, optional white space.  Anything else is
    a [ValueError] whose text carries at most 200 characters of the [repr]
    of the argument.  Integers are unbounded, but the interpreter converts
    no string with more than [int_max_str_digits] digits (the default of
    [sys.get_int_max_str_digits()], which the program does not change). *)

Definition is_space (c : ascii) : bool :=
  let n := N_of_ascii c in
  ((9 <=? n) && (n <=? 13) || (n =? 32) || (n =? 133) || (n =? 160))%N.

Definition digit_value (c : ascii) : option Z :=
  let n := N_of_ascii c in
  if ((48 <=? n) && (n <=? 57))%N then Some (Z.of_N n - 48) else None.

Fixpoint lstrip (s : string) : string :=
  match s with
  | String c s' => if is_space c then lstrip s' else s
  | "" => ""
  end.

Fixpoint all_space (s : string) : bool :=
  match s with
  | "" => true
  | String c s' => is_space c && all_space s'
  end.

(** The digits after the sign.  [acc] is the number read so far, [prev_digit]
    tells whether the character just read was a digit (an underscore is
    accepted only then, and never last). *)
Fixpoint digits (acc : Z) (prev_digit : bool) (s : string) : option Z :=
  match s with
  | "" => if prev_digit then Some acc else None
  | String c s' =>
      match digit_value c with
      | Some d => digits (10 * acc + d) true s'
      | None =>
          if Ascii.eqb c "_" then
            (if prev_digit then
               match s' with
               | String c' _ =>
                   match digit_value c' with
                   | Some _ => digits acc false s'
                   | None => None
                   end
               | "" => None
               end
             else None)
          else if prev_digit && all_space s then Some acc
          else None
      end
  end.

Definition parse_int (s : string) : option Z :=
  match lstrip s with
  | String "+" s' => digits 0 false s'
  | String "-" s' => Z.opp <$> digits 0 false s'
  | s' => digits 0 false s'
  end.

(** The cap on string conversion.  The digits are counted over the leading
    run of digits and underscores, after the white space and the sign; a run
    that misuses an underscore is a syntax error and is not counted; what
    follows the run is looked at only after the count has passed. *)
Definition int_max_str_digits : Z := 4300.

Definition unsigned_part (s : string) : string :=
  match lstrip s with
  | String "+" s' => s'
  | String "-" s' => s'
  | s' => s'
  end.

Fixpoint run_digits (prev_digit : bool) (s : string) : option Z :=
  match s with
  | "" => Some 0
  | String c s' =>
      match digit_value c with
      | Some _ => Z.succ <$> run_digits true s'
      | None =>
          if Ascii.eqb c "_" then
            (if prev_digit then
               match s' with
               | String c' _ =>
                   match digit_value c' with
                   | Some _ => run_digits false s'
                   | None => None
                   end
               | "" => None
               end
             else None)
          else Some 0
      end
  end.

Definition too_many_digits (s : string) : option Z :=
  match run_digits false (unsigned_part s) with
  | Some n => if int_max_str_digits <? n then Some n else None
  | None => None
  end.

(** [str(n)] for [0 <= n]. *)
Definition decimal_digit (n : Z) : ascii := ascii_of_N (48 + Z.to_N (n mod 10)).

Fixpoint decimal_go (fuel : nat) (n : Z) (acc : string) : string :=
  match fuel with
  | O => acc
  | S fuel' =>
      let acc' := String (decimal_digit n) acc in
      if n <? 10 then acc' else decimal_go fuel' (n / 10) acc'
  end.

Definition decimal (n : Z) : string :=
  decimal_go (S (Z.to_nat (Z.log2 n))) n "".

Definition too_many_digits_message (n : Z) : string :=
  "Exceeds the limit (" ++ decimal int_max_str_digits
    ++ " digits) for integer string conversion: value has " ++ decimal n
    ++ " digits; use sys.set_int_max_str_digits() to increase the limit".

(** Truncation of a finite binary float [(-1)^s * m * 2^e] towards zero. *)
Definition trunc_float (s : bool) (m : positive) (e : Z) : Z :=
  let a := if 0 <=? e then Z.pos m * 2 ^ e else Z.pos m / 2 ^ (- e) in
  if s then - a else a.

Definition int (v : value) : result Z :=
  match v with
  | VInt n => Returns n
  | VBool b => Returns (if b then 1 else 0)
  | VFloat S754_nan =>
      Raises (Exc "ValueError" "cannot convert float NaN to integer")
  | VFloat (S754_infinity _) =>
      Raises (Exc "OverflowError" "cannot convert float infinity to integer")
  | VFloat (S754_zero _) => Returns 0
  | VFloat (S754_finite s m e) => Returns (trunc_float s m e)
  | VStr s =>
      match too_many_digits s with
      | Some n => Raises (Exc "ValueError" (too_many_digits_message n))
      | None =>
          match parse_int s with
          | Some n => Returns n
          | None =>
              Raises (Exc "ValueError"
                        ("invalid literal for int() with base 10: "
                           ++ substring 0 200 (repr_str s)))
          end
      end
  | VNone | VList _ | VDict _ =>
      Raises (Exc "TypeError"
                ("int() argument must be a string, a bytes-like object or a real number, not '"
                   ++ type_name v ++ "'"))
  end.

(** [obj.get(key, default)]: defined on a [dict] only; every other JSON
    value has no attribute [get]. *)
Definition get (obj : value) (key : string) (default : value) : result value :=
  match obj with
  | VDict d =>
      match d !! key with
      | Some v => Returns v
      | None => Returns default
      end
  | _ =>
      Raises (Exc "AttributeError"
                ("'" ++ type_name obj ++ "' object has no attribute 'get'"))
  end.

End Py.

(** ** The collaborators and the world around one request *)

Module App.
Import Py.

(** [posixpath.join] over a first component and the remaining ones. *)
Fixpoint ends_with_sep (s : string) : bool :=
  match s with
  | "" => false
  | String c "" => Ascii.eqb c "/"
  | String _ s' => ends_with_sep s'
  end.

Definition starts_with_sep (s : string) : bool :=
  match s with
  | String c _ => Ascii.eqb c "/"
  | "" => false
  end.

Definition join2 (path b : string) : string :=
  if starts_with_sep b then b
  else if String.eqb path "" || ends_with_sep path then path ++ b
  else path ++ "/" ++ b.

Definition path_join (a : string) (p : list string) : string :=
  fold_left join2 p a.

(** [posixpath.dirname]: the head up to the last separator, without its
    trailing separators unless it consists of separators only. *)
Fixpoint dirname_raw (s : string) : string :=
  match s with
  | "" => ""
  | String c s' =>
      if contains_char "/" s then String c (dirname_raw s') else ""
  end.

Fixpoint all_sep (s : string) : bool :=
  match s with
  | "" => true
  | String c s' => Ascii.eqb c "/" && all_sep s'
  end.

Fixpoint rstrip_sep (s : string) : string :=
  match s with
  | "" => ""
  | String c s' => if all_sep s then "" else String c (rstrip_sep s')
  end.

Definition dirname (p : string) : string :=
  let head := dirname_raw p in
  if negb (String.eqb head "") && negb (all_sep head) then rstrip_sep head
  else head.

(** The prefixes of a relative path that name a directory on the way to it,
    shortest first, the path itself last: what [os.makedirs] visits. *)
Fixpoint ancestors_from (seen : string) (s : string) : list string :=
  match s with
  | "" => if String.eqb seen "" then [] else [seen]
  | String c s' =>
      if Ascii.eqb c "/" && negb (String.eqb seen "")
      then seen :: ancestors_from (seen ++ "/") s'
      else ancestors_from (seen ++ String c "") s'
  end.

Definition ancestors (p : string) : list string := ancestors_from "" p.

(** A naive local [datetime], as [datetime.now()] returns it. *)
Record datetime : Type := Datetime {
  year : Z; month : Z; day : Z;
  hour : Z; minute : Z; second : Z;
  microsecond : Z
}.

(** The ranges [datetime] enforces on its fields (the day against the
    longest month; the calendar is not needed here). *)
Definition valid_datetime (t : datetime) : Prop :=
  1 <= year t <= 9999 /\ 1 <= month t <= 12 /\ 1 <= day t <= 31 /\
  0 <= hour t <= 23 /\ 0 <= minute t <= 59 /\ 0 <= second t <= 59 /\
  0 <= microsecond t <= 999999.

(** The second a [datetime] falls in: all fields but the microseconds. *)
Definition second_of (t : datetime) : Z * Z * Z * Z * Z * Z :=
  (year t, month t, day t, hour t, minute t, second t).

Definition digit_char (n : Z) : ascii := ascii_of_N (48 + Z.to_N (n mod 10)).

(** [%m], [%d], [%H], [%M], [%S]: two digits; [%Y]: four digits. *)
Definition pad2 (n : Z) : string :=
  String (digit_char (n / 10)) (String (digit_char n) "").

Definition pad4 (n : Z) : string :=
  String (digit_char (n / 1000)) (String (digit_char (n / 100))
    (String (digit_char (n / 10)) (String (digit_char n) ""))).

(** [t.strftime("%Y%m%d_%H%M%S")] *)
Definition strftime (t : datetime) : string :=
  pad4 (year t) ++ pad2 (month t) ++ pad2 (day t) ++ "_"
    ++ pad2 (hour t) ++ pad2 (minute t) ++ pad2 (second t).



Section Handler.

(** The tensors are opaque: [Inputs] is what the processor returns (the
    keyword arguments of [generate]), [Audio] what [generate] returns. *)
Context {Inputs Audio : Type}.

(** The keyword arguments of the two calls, as the handler passes them. *)
Record processor_args : Type := ProcessorArgs {
  text : list value;
  padding : bool;
  return_tensors : string
}.

Record generate_args : Type := GenerateArgs {
  inputs : Inputs;
  max_length : Z;
  do_sample : bool
}.

(** The two module globals, when loading succeeded. *)
Record processor_t : Type := Processor {
  processor_call : processor_args -> result Inputs
}.

Record model_t : Type := Model {
  generate : generate_args -> result Audio;
  sampling_rate : Z            (* model.config.audio_encoder.sampling_rate *)
}.

(** What a path holds after [torchaudio.save]: the encoded tensor with its
    sample rate, or the remains of a write that failed. *)
Inductive file : Type :=
| Wav (samples : Audio) (rate : Z)
| Partial.

Record save_failure : Type := SaveFailure {
  save_exc : exc;
  leaves_partial : bool
}.

(** Everything outside the handler, as it answers during one request.  The
    [*_fault] fields are the failures of the operating system that the file
    system model below does not decide (permissions, a full disk, an encoder
    error). *)
Record Deps : Type := {
  processor : option processor_t;
  model : option model_t;
  request_json : result value;            (* request.json *)
  cuda_is_available : bool;               (* torch.cuda.is_available() *)
  to_cuda : Inputs -> result Inputs;      (* {k: v.to("cuda") ...} *)
  now : datetime;                         (* datetime.now() *)
  cpu : Audio -> result Audio;            (* audio_values.cpu() *)
  squeeze0 : Audio -> result Audio;       (* audio_values.squeeze(0) *)
  mkdir_fault : string -> option exc;
  save_fault : string -> Audio -> Z -> option save_failure;
  save_cannot_open : string -> exc   (* the audio backend's own error *)
}.

(** Log records: the level and the message.  The f-string of line 47 is kept
    with its two arguments instead of their rendering. *)
Inductive level : Type := INFO | ERROR.

Inductive message : Type :=
| Msg (s : string)
| MsgGenerating (description : value) (duration : Z).

(** What the handler does to the outside, in order. *)
Inductive event : Type :=
| EvLog (l : level) (m : message)
| EvRequestJson
| EvProcessor (a : processor_args)
| EvCudaIsAvailable
| EvToCuda (i : Inputs)
| EvGenerate (a : generate_args)
| EvNow
| EvMakedirs (path : string)
| EvCpu (a : Audio)
| EvSqueeze (a : Audio)
| EvSave (path : string) (a : Audio) (rate : Z).

(** The file system under the working directory, and the trace. *)
Record world : Type := World {
  dirs : gset string;
  files : gmap string file;
  trace : list event
}.

Definition emit (e : event) (w : world) : world :=
  {| dirs := dirs w; files := files w; trace := trace w ++ [e] |}.

(** *** A state and exception monad for the body of the handler *)

Definition M (A : Type) : Type := world -> result A * world.

Definition ret {A} (a : A) : M A := fun w => (Returns a, w).

Definition raise {A} (e : exc) : M A := fun w => (Raises e, w).

Definition bind {A B} (c : M A) (k : A -> M B) : M B :=
  fun w =>
    match c w with
    | (Returns a, w') => k a w'
    | (Raises e, w') => (Raises e, w')
    end.

(** [try: c  except Exception as e: h e] *)
Definition try_except {A} (c : M A) (h : exc -> M A) : M A :=
  fun w =>
    match c w with
    | (Returns a, w') => (Returns a, w')
    | (Raises e, w') => h e w'
    end.

(** An outside call: leaves its event, then returns or raises. *)
Definition call {A} (e : event) (r : result A) : M A :=
  fun w => (r, emit e w).

(** A Python builtin on values: no event. *)
Definition lift {A} (r : result A) : M A := fun w => (r, w).

Notation "x <- c ;; k" := (bind c (fun x => k))
  (at level 100, c at next level, right associativity).
Notation "c ;; k" := (bind c (fun _ => k))
  (at level 100, right associativity).

Definition log (l : level) (m : message) : M unit :=
  call (EvLog l m) (Returns tt).

Definition with_dirs (d : gset string) (w : world) : world :=
  {| dirs := d; files := files w; trace := trace w |}.

Definition with_files (f : gmap string file) (w : world) : world :=
  {| dirs := dirs w; files := f; trace := trace w |}.

(** *** The file system calls *)

(** [os.makedirs(path, exist_ok=True)] over the [ancestors] of [path]: a
    directory that is there is kept, a file in the way makes [mkdir path]
    fail, anything else is created unless the system refuses. *)
Fixpoint mkdirs (fault : string -> option exc) (path : string)
    (todo : list string) : M unit :=
  match todo with
  | [] => ret tt
  | p :: rest =>
      fun w =>
        if decide (p ∈ dirs w) then mkdirs fault path rest w
        else
          match files w !! p with
          | Some _ =>
              (Raises
                 (match rest with
                  | [] => Exc "FileExistsError"
                            ("[Errno 17] File exists: " ++ repr_str path)
                  | _ => Exc "NotADirectoryError"
                           ("[Errno 20] Not a directory: " ++ repr_str path)
                  end), w)
          | None =>
              match fault p with
              | Some e => (Raises e, w)
              | None => mkdirs fault path rest (with_dirs ({[p]} ∪ dirs w) w)
              end
          end
  end.

Definition makedirs (D : Deps) (path : string) : M unit :=
  call (EvMakedirs path) (Returns tt) ;;
  mkdirs (mkdir_fault D) path (ancestors path).

(** [torchaudio.save(path, samples, sample_rate=rate)]: the path must not be
    a directory and its parent must be one; then the file holds the encoded
    tensor, unless the write fails, which may leave a partial file. *)
Definition save (D : Deps) (path : string) (samples : Audio) (rate : Z) : M unit :=
  call (EvSave path samples rate) (Returns tt) ;;
  fun w =>
    if decide (path ∈ dirs w) then (Raises (save_cannot_open D path), w)
    else if decide (dirname path = "" \/ dirname path ∈ dirs w) then
      match save_fault D path samples rate with
      | Some f =>
          (Raises (save_exc f),
           if leaves_partial f then with_files (<[path := Partial]> (files w)) w
           else w)
      | None =>
          (Returns tt, with_files (<[path := Wav samples rate]> (files w)) w)
      end
    else (Raises (save_cannot_open D path), w).

(** *** The response *)

(** [jsonify(d)] with Flask's default status, and [jsonify(d), code]. *)
Record response : Type := Response {
  body : gmap string value;
  status_code : Z
}.

Definition jsonify (d : list (string * value)) : response :=
  {| body := list_to_map d; status_code := 200 |}.

Definition with_status (r : response) (code : Z) : response :=
  {| body := body r; status_code := code |}.

(** *** [generate_music] (lines 36-93)

    The [try] block is cut at the four places the properties below speak
    about; [try_block] runs the pieces in the order of the source. *)

(** Lines 44-47: the two fields with their defaults, [int], the first log
    record.  [request.json] is evaluated once per line. *)
Definition read_input (D : Deps) : M (value * Z) :=
  request <- call EvRequestJson (request_json D) ;;
  description <- lift (get request "description" (VStr "")) ;;
  request <- call EvRequestJson (request_json D) ;;
  raw <- lift (get request "duration" (VInt 10)) ;;
  duration <- lift (int raw) ;;
  log INFO (MsgGenerating description duration) ;;
  ret (description, duration).

Definition processor_kwargs (description : value) : processor_args :=
  {| text := [description]; padding := true; return_tensors := "pt" |}.

(** Lines 49-58: the text processor, then the move to the GPU if there is
    one. *)
Definition process_text (D : Deps) (processor : processor_t)
    (description : value) : M Inputs :=
  log INFO (Msg "Processing text input...") ;;
  inputs <- call (EvProcessor (processor_kwargs description))
                 (processor_call processor (processor_kwargs description)) ;;
  cuda <- call EvCudaIsAvailable (Returns (cuda_is_available D)) ;;
  if cuda : bool then call (EvToCuda inputs) (to_cuda D inputs) else ret inputs.

Definition generate_kwargs (inputs : Inputs) (duration : Z) : generate_args :=
  {| inputs := inputs; max_length := duration * 50; do_sample := true |}.

(** Lines 60-66: [model.generate]. *)
Definition synthesize (model : model_t) (inputs : Inputs) (duration : Z)
  : M Audio :=
  log INFO (Msg "Generating audio (this may take a while)...") ;;
  call (EvGenerate (generate_kwargs inputs duration))
       (generate model (generate_kwargs inputs duration)).

(** Line 70 *)
Definition filename_of (t : datetime) : string :=
  "generated_music_" ++ strftime t ++ ".wav".

(** Lines 68-80: the file name, the directory, the file.  Returns the file
    name. *)
Definition persist (D : Deps) (model : model_t) (audio_values : Audio)
  : M string :=
  t <- call EvNow (Returns (now D)) ;;
  let filename := filename_of t in
  let filepath := path_join "static" ["generated"; filename] in
  makedirs D (dirname filepath) ;;
  log INFO (Msg "Saving generated audio...") ;;
  let sampling_rate := sampling_rate model in
  audio_values <- call (EvCpu audio_values) (cpu D audio_values) ;;
  squeezed <- call (EvSqueeze audio_values) (squeeze0 D audio_values) ;;
  save D filepath squeezed sampling_rate ;;
  ret filename.

Definition success_response (filename : string) : response :=
  jsonify [("status", VStr "success");
           ("file_path", VStr ("/static/generated/" ++ filename))].

Definition error_response (text : string) : response :=
  with_status (jsonify [("status", VStr "error"); ("message", VStr text)]) 500.

(** Lines 44-86 *)
Definition try_block (D : Deps) (model : model_t) (processor : processor_t)
  : M response :=
  input <- read_input D ;;
  inputs <- process_text D processor (fst input) ;;
  audio_values <- synthesize model inputs (snd input) ;;
  filename <- persist D model audio_values ;;
  log INFO (Msg "Generation completed successfully!") ;;
  ret (success_response filename).

(** Lines 88-93 *)
Definition except_block (e : exc) : M response :=
  log ERROR (Msg ("Error during generation: " ++ exc_str e)) ;;
  ret (error_response (exc_str e)).

Definition generate_music (D : Deps) : M response :=
  match model D, processor D with
  | Some model, Some processor =>
      try_except (try_block D model processor) except_block
  | _, _ =>
      (* model is None or processor is None *)
      ret (error_response "Model not initialized properly")
  end.

(** *** Observations on a run *)

(** Every response the handler builds is one of two shapes. *)
Inductive well_formed : response -> Prop :=
| wf_success filename : well_formed (success_response filename)
| wf_error text : well_formed (error_response text).

(** The length budgets handed to [model.generate], oldest first. *)
Definition budget_of (e : event) : option Z :=
  match e with
  | EvGenerate a => Some (max_length a)
  | _ => None
  end.

Definition budgets (tr : list event) : list Z := omap budget_of tr.

(** A computation only adds events to the trace. *)
Definition appends {A} (c : M A) : Prop :=
  forall w, exists evs, trace (snd (c w)) = (trace w ++ evs)%list.

(** A computation only adds events, and leaves the file system alone. *)
Definition emit_all (evs : list event) (w : world) : world :=
  {| dirs := dirs w; files := files w; trace := trace w ++ evs |}.

Definition emits {A} (c : M A) : Prop :=
  forall w, exists evs, snd (c w) = emit_all evs w.

(** Two worlds with the same file system. *)
Definition same_fs (w1 w2 : world) : Prop :=
  dirs w1 = dirs w2 /\ files w1 = files w2.

(** Two computations that, started on the same file system, give the same
    result and the same file system; the traces are left out. *)
Definition agree {A} (c1 c2 : M A) : Prop :=
  forall w1 w2, same_fs w1 w2 ->
    fst (c1 w1) = fst (c2 w2) /\ same_fs (snd (c1 w1)) (snd (c2 w2)).

(** The same deployment answering another request body. *)
Definition with_request (D : Deps) (req : result value) : Deps :=
  {| processor := processor D; model := model D; request_json := req;
     cuda_is_available := cuda_is_available D; to_cuda := to_cuda D;
     now := now D; cpu := cpu D; squeeze0 := squeeze0 D;
     mkdir_fault := mkdir_fault D; save_fault := save_fault D;
     save_cannot_open := save_cannot_open D |}.

(** *** Start-up (lines 15-29)

    Both globals are bound by one [try]: any exception while loading the
    processor, loading the model or moving it to the GPU leaves both [None]. *)
Definition startup (load_processor : result processor_t)
    (load_model : result model_t) (cuda : bool)
    (model_to_cuda : model_t -> result model_t)
  : option processor_t * option model_t :=
  match load_processor with
  | Raises _ => (None, None)
  | Returns p =>
      match load_model with
      | Raises _ => (None, None)
      | Returns m =>
          if cuda then
            match model_to_cuda m with
            | Returns m' => (Some p, Some m')
            | Raises _ => (None, None)
            end
          else (Some p, Some m)
      end
  end.

(** *** The [__main__] block (lines 95-98)

    What runs before [app.run] serves the first request: the output
    directory, then one log record. *)
Definition main_setup (D : Deps) : M unit :=
  makedirs D "static/generated" ;;
  log INFO (Msg "Starting Flask server...").

(** *** More observations on a run *)

(** The paths handed to [torchaudio.save], oldest first. *)
Definition saved_path (e : event) : option string :=
  match e with
  | EvSave path _ _ => Some path
  | _ => None
  end.

Definition saves (tr : list event) : list string := omap saved_path tr.

(** A computation only adds events, and at most [n] of them are of the kind
    [f] selects. *)
Definition adds {A X} (f : event -> option X) (n : nat) (c : M A) : Prop :=
  forall w, exists evs,
    trace (snd (c w)) = (trace w ++ evs)%list /\
    (length (omap f evs) <= n)%nat.

(** [w'] differs from [w] at most in the file at [path] and in the two
    directories on the way to the output files. *)
Definition fs_within (path : string) (w w' : world) : Prop :=
  (forall q, q <> path -> files w' !! q = files w !! q) /\
  dirs w ⊆ dirs w' /\
  dirs w' ⊆ dirs w ∪ {["static"; "static/generated"]}.

Definition confined {A} (path : string) (c : M A) : Prop :=
  forall w, fs_within path w (snd (c w)).

End Handler.

Arguments processor_t : clear implicits.
Arguments model_t : clear implicits.
Arguments generate_args : clear implicits.
Arguments file : clear implicits.
Arguments Deps : clear implicits.
Arguments event : clear implicits.
Arguments world : clear implicits.
Arguments M : clear implicits.
Arguments save_failure : clear implicits.

End App.

(** ** A concrete deployment, for running the handler *)

Module Sample.
Import Py App.

(** Tokenised text stands for the processor's tensors, and the length budget
    for the generated audio. *)
Definition a_processor : processor_t (list value) :=
  {| processor_call := fun a => Returns (text a) |}.

Definition a_model : model_t (list value) Z :=
  {| generate := fun a => Returns (max_length a); sampling_rate := 32000 |}.

Definition failing_model (e : exc) : model_t (list value) Z :=
  {| generate := fun _ => Raises e; sampling_rate := 32000 |}.

Definition a_time : datetime :=
  {| year := 2024; month := 5; day := 17;
     hour := 9; minute := 3; second := 7; microsecond := 123456 |}.

Definition a_later_time : datetime :=
  {| year := 2024; month := 5; day := 17;
     hour := 9; minute := 3; second := 8; microsecond := 2 |}.

Definition deps_at (t : datetime) (p : option (processor_t (list value)))
    (m : option (model_t (list value) Z)) (req : result value)
  : Deps (list value) Z :=
  {| processor := p; model := m; request_json := req;
     cuda_is_available := false; to_cuda := Returns;
     now := t; cpu := Returns; squeeze0 := Returns;
     mkdir_fault := fun _ => None;
     save_fault := fun _ _ _ => None;
     save_cannot_open := fun path => Exc "RuntimeError" ("Cannot open " ++ path) |}.

Definition loaded (req : result value) : Deps (list value) Z :=
  deps_at a_time (Some a_processor) (Some a_model) req.

Definition loaded_later (req : result value) : Deps (list value) Z :=
  deps_at a_later_time (Some a_processor) (Some a_model) req.

Definition unloaded (req : result value) : Deps (list value) Z :=
  deps_at a_time None None req.

Definition out_of_memory : exc := Exc "RuntimeError" "CUDA out of memory".

Definition overloaded (req : result value) : Deps (list value) Z :=
  deps_at a_time (Some a_processor) (Some (failing_model out_of_memory)) req.

(** Deployments that differ from [deps_at] in one collaborator. *)
Definition failing_processor (e : exc) : processor_t (list value) :=
  {| processor_call := fun _ => Raises e |}.

Definition gpu (t : datetime) (req : result value) : Deps (list value) Z :=
  {| processor := Some a_processor; model := Some a_model; request_json := req;
     cuda_is_available := true; to_cuda := fun i => Returns (VStr "cuda" :: i);
     now := t; cpu := Returns; squeeze0 := Returns;
     mkdir_fault := fun _ => None;
     save_fault := fun _ _ _ => None;
     save_cannot_open := fun path => Exc "RuntimeError" ("Cannot open " ++ path) |}.

Definition disk_full : exc := Exc "OSError" "[Errno 28] No space left on device".

Definition full_disk (req : result value) : Deps (list value) Z :=
  {| processor := Some a_processor; model := Some a_model; request_json := req;
     cuda_is_available := false; to_cuda := Returns;
     now := a_time; cpu := Returns; squeeze0 := Returns;
     mkdir_fault := fun _ => None;
     save_fault := fun _ _ _ =>
       Some {| save_exc := disk_full; leaves_partial := true |};
     save_cannot_open := fun path => Exc "RuntimeError" ("Cannot open " ++ path) |}.

Definition unsupported_media : exc :=
  Exc "UnsupportedMediaType"
    "415 Unsupported Media Type: Did not attempt to load JSON data because the request Content-Type was not 'application/json'.".

Definition json_fields (fields : list (string * value)) : gmap string value :=
  list_to_map fields.

Definition json_body (fields : list (string * value)) : result value :=
  Returns (VDict (json_fields fields)).

Definition a_request : list (string * value) :=
  [("description", VStr "calm piano"); ("duration", VInt 5)].

Definition an_empty_request : list (string * value) :=
  [("description", VStr ""); ("duration", VInt 5)].

Definition a_negative_duration : list (string * value) :=
  [("duration", VInt (-3))].



Definition empty_world : world (list value) Z :=
  {| dirs := ∅; files := ∅; trace := [] |}.

Definition mute (req : result value) : Deps (list value) Z :=
  deps_at a_time (Some (failing_processor out_of_memory)) (Some a_model) req.

Definition a_null_description : list (string * value) :=
  [("description", VNone); ("duration", VInt 5)].

(** The float 2.5 = 5 * 2^-1. *)
Definition a_fractional_duration : list (string * value) :=
  [("duration", VFloat (S754_finite false 5 (-1)))].

(** A working directory in which [static] is a regular file, and one in
    which the output directory is already there. *)
Definition blocked_world : world (list value) Z :=
  {| dirs := ∅; files := {["static" := Partial]}; trace := [] |}.

Definition prepared_world : world (list value) Z :=
  {| dirs := {["static"; "static/generated"]}; files := ∅; trace := [] |}.

End Sample.


(** * Properties *)

Import Py App.

Section Properties.

Context {Inputs Audio : Type}.

Implicit Types (D : Deps Inputs Audio) (w : world Inputs Audio).
Implicit Types (m : model_t Inputs Audio) (p : processor_t Inputs).
Implicit Types (e : exc) (r : response).

(** ** The monad *)

Lemma bind_returns_inv {A B} (c : M Inputs Audio A) (k : A -> M Inputs Audio B)
    w b w' :
  bind c k w = (Returns b, w') ->
  exists a w1, c w = (Returns a, w1) /\ k a w1 = (Returns b, w').
Proof.
  unfold bind. destruct (c w) as [[a|e] w1]; intros H.
  - exists a, w1. split; [reflexivity | exact H].
  - discriminate H.
Qed.

Lemma bind_returns {A B} (c : M Inputs Audio A) (k : A -> M Inputs Audio B)
    w a w1 :
  c w = (Returns a, w1) -> bind c k w = k a w1.
Proof. unfold bind. intros ->. reflexivity. Qed.

Lemma bind_raises {A B} (c : M Inputs Audio A) (k : A -> M Inputs Audio B)
    w e w1 :
  c w = (Raises e, w1) -> bind c k w = (Raises e, w1).
Proof. unfold bind. intros ->. reflexivity. Qed.

Lemma try_except_returns {A} (c : M Inputs Audio A) h w a w1 :
  c w = (Returns a, w1) -> try_except c h w = (Returns a, w1).
Proof. unfold try_except. intros ->. reflexivity. Qed.

Lemma try_except_raises {A} (c : M Inputs Audio A) h w e w1 :
  c w = (Raises e, w1) -> try_except c h w = h e w1.
Proof. unfold try_except. intros ->. reflexivity. Qed.

Lemma success_response_fields filename :
  status_code (success_response filename) = 200 /\
  body (success_response filename) !! "status" = Some (VStr "success") /\
  body (success_response filename) !! "file_path"
    = Some (VStr ("/static/generated/" ++ filename)).
Proof. repeat split; reflexivity. Qed.

Lemma error_response_fields text :
  status_code (error_response text) = 500 /\
  body (error_response text) !! "status" = Some (VStr "error") /\
  body (error_response text) !! "message" = Some (VStr text).
Proof. repeat split; reflexivity. Qed.

(** ** Computations only add to the trace *)

Lemma appends_ret {A} (a : A) : appends (ret (Inputs:=Inputs) (Audio:=Audio) a).
Proof. intros w. exists []. cbn. by rewrite app_nil_r. Qed.

Lemma appends_lift {A} (r : result A) :
  appends (lift (Inputs:=Inputs) (Audio:=Audio) r).
Proof. intros w. exists []. cbn. by rewrite app_nil_r. Qed.

Lemma appends_call {A} (ev : event Inputs Audio) (r : result A) :
  appends (call ev r).
Proof. intros w. by exists [ev]. Qed.

Lemma appends_bind {A B} (c : M Inputs Audio A) (k : A -> M Inputs Audio B) :
  appends c -> (forall a, appends (k a)) -> appends (bind c k).
Proof.
  intros Hc Hk w. unfold bind. destruct (Hc w) as [evs Hevs].
  destruct (c w) as [[a|e] w1]; cbn in Hevs.
  - destruct (Hk a w1) as [evs' Hevs']. exists (evs ++ evs')%list.
    by rewrite Hevs', Hevs, app_assoc.
  - by exists evs.
Qed.

Lemma appends_try_except {A} (c : M Inputs Audio A) h :
  appends c -> (forall e, appends (h e)) -> appends (try_except c h).
Proof.
  intros Hc Hh w. unfold try_except. destruct (Hc w) as [evs Hevs].
  destruct (c w) as [[a|e] w1]; cbn in Hevs.
  - by exists evs.
  - destruct (Hh e w1) as [evs' Hevs']. exists (evs ++ evs')%list.
    by rewrite Hevs', Hevs, app_assoc.
Qed.

(** ** Computations that leave the file system alone *)

Lemma emit_all_nil w : emit_all [] w = w.
Proof. destruct w. unfold emit_all. cbn. by rewrite app_nil_r. Qed.

Lemma emit_all_app (evs1 evs2 : list (event Inputs Audio)) w :
  emit_all evs2 (emit_all evs1 w) = emit_all (evs1 ++ evs2) w.
Proof. unfold emit_all. cbn. by rewrite app_assoc. Qed.

Lemma emits_ret {A} (a : A) : emits (ret (Inputs:=Inputs) (Audio:=Audio) a).
Proof. intros w. exists []. cbn. by rewrite emit_all_nil. Qed.

Lemma emits_lift {A} (r : result A) :
  emits (lift (Inputs:=Inputs) (Audio:=Audio) r).
Proof. intros w. exists []. cbn. by rewrite emit_all_nil. Qed.

Lemma emits_call {A} (ev : event Inputs Audio) (r : result A) :
  emits (call ev r).
Proof. intros w. by exists [ev]. Qed.

Lemma emits_bind {A B} (c : M Inputs Audio A) (k : A -> M Inputs Audio B) :
  emits c -> (forall a, emits (k a)) -> emits (bind c k).
Proof.
  intros Hc Hk w. unfold bind. destruct (Hc w) as [evs Hevs].
  destruct (c w) as [[a|e] w1]; cbn in Hevs; subst w1.
  - destruct (Hk a (emit_all evs w)) as [evs' Hevs'].
    exists (evs ++ evs')%list. by rewrite Hevs', emit_all_app.
  - by exists evs.
Qed.

Lemma emits_appends {A} (c : M Inputs Audio A) : emits c -> appends c.
Proof. intros Hc w. destruct (Hc w) as [evs ->]. by exists evs. Qed.

Ltac solve_emits :=
  repeat first
    [ apply emits_bind; [| intros ?]
    | apply emits_ret | apply emits_lift | apply emits_call
    | match goal with |- emits (if ?b then _ else _) => destruct b end ].

Lemma emits_read_input D : emits (read_input D).
Proof. unfold read_input, log. solve_emits. Qed.

Lemma emits_process_text D p description :
  emits (process_text D p description).
Proof. unfold process_text, log. solve_emits. Qed.

Lemma emits_synthesize m inputs duration : emits (synthesize m inputs duration).
Proof. unfold synthesize, log. solve_emits. Qed.

Lemma emits_except_block e :
  emits (except_block (Inputs:=Inputs) (Audio:=Audio) e).
Proof. unfold except_block, log. solve_emits. Qed.

(** ** The file system calls *)

Lemma mkdirs_spec fault path todo w :
  files (snd (mkdirs fault path todo w)) = files w /\
  trace (snd (mkdirs fault path todo w)) = trace w /\
  dirs w ⊆ dirs (snd (mkdirs fault path todo w)) /\
  (forall u, fst (mkdirs fault path todo w) = Returns u ->
     forall q, q ∈ todo -> q ∈ dirs (snd (mkdirs fault path todo w))).
Proof.
  revert w. induction todo as [|q0 rest IH]; intros w.
  - cbn. repeat split; [done | intros _ _ q Hq; by apply elem_of_nil in Hq].
  - cbn [mkdirs]. destruct (decide (q0 ∈ dirs w)) as [Hin|Hout].
    + destruct (IH w) as (Hf & Ht & Hd & Hall). repeat split; try done.
      intros u Hu q Hq. apply elem_of_cons in Hq as [-> | Hq]; [by apply Hd | eauto].
    + destruct (files w !! q0); [repeat split; try done |].
      destruct (fault q0); [repeat split; try done |].
      destruct (IH (with_dirs ({[q0]} ∪ dirs w) w)) as (Hf & Ht & Hd & Hall).
      cbn in Hf, Ht, Hd. repeat split; [done | done | |].
      * etrans; [apply union_subseteq_r | exact Hd].
      * intros u Hu q Hq. apply elem_of_cons in Hq as [-> | Hq]; [| eauto].
        apply Hd, elem_of_union_l. by apply elem_of_singleton.
Qed.

Lemma appends_makedirs D path : appends (makedirs D path).
Proof.
  intros w. exists [EvMakedirs path]. unfold makedirs, bind, call.
  by destruct (mkdirs_spec (mkdir_fault D) path (ancestors path)
                 (emit (EvMakedirs path) w)) as (_ & -> & _).
Qed.

Lemma makedirs_returns_inv D path w u w' :
  makedirs D path w = (Returns u, w') ->
  files w' = files w /\
  trace w' = (trace w ++ [EvMakedirs path])%list /\
  dirs w ⊆ dirs w' /\
  (forall q, q ∈ ancestors path -> q ∈ dirs w').
Proof.
  unfold makedirs, bind, call. intros Hrun.
  pose proof (mkdirs_spec (mkdir_fault D) path (ancestors path)
                (emit (EvMakedirs path) w)) as (Hf & Ht & Hd & Hall).
  rewrite Hrun in Hf, Ht, Hd, Hall. cbn in *. eauto.
Qed.

Lemma save_returns_inv D path samples rate w u w' :
  save D path samples rate w = (Returns u, w') ->
  files w' = <[path := Wav samples rate]> (files w) /\
  dirs w' = dirs w /\
  trace w' = (trace w ++ [EvSave path samples rate])%list.
Proof.
  unfold save, bind, call. cbn.
  repeat case_decide; try discriminate;
    destruct (save_fault D path samples rate); try discriminate;
    intros [= _ <-]; done.
Qed.

Lemma appends_save D path samples rate : appends (save D path samples rate).
Proof.
  intros w. exists [EvSave path samples rate]. unfold save, bind, call. cbn.
  repeat case_decide; try done;
    destruct (save_fault D path samples rate) as [[e []]|]; done.
Qed.

(** ** The file name *)

Lemma digit_char_cases (n : Z) :
  digit_char n ∈ ["0"; "1"; "2"; "3"; "4"; "5"; "6"; "7"; "8"; "9"]%char.
Proof.
  unfold digit_char.
  assert (H : 0 <= n mod 10 < 10) by (apply Z.mod_pos_bound; lia).
  assert (Hk : exists k : nat, (k < 10)%nat /\ n mod 10 = Z.of_nat k).
  { exists (Z.to_nat (n mod 10)). lia. }
  destruct Hk as (k & Hk & ->).
  do 10 (destruct k as [|k]; [apply list_elem_of_In; cbn; auto 12 |]). lia.
Qed.

Lemma digit_value_digit_char (n : Z) :
  digit_value (digit_char n) = Some (n mod 10).
Proof.
  unfold digit_char.
  assert (H : 0 <= n mod 10 < 10) by (apply Z.mod_pos_bound; lia).
  assert (Hk : exists k : nat, (k < 10)%nat /\ n mod 10 = Z.of_nat k).
  { exists (Z.to_nat (n mod 10)). lia. }
  destruct Hk as (k & Hk & ->).
  do 10 (destruct k as [|k]; [reflexivity |]). lia.
Qed.

Lemma digit_char_not_sep (n : Z) : Ascii.eqb (digit_char n) "/" = false.
Proof.
  pose proof (digit_char_cases n) as H.
  repeat (apply elem_of_cons in H as [-> | H]; [reflexivity |]).
  by apply elem_of_nil in H.
Qed.

Lemma contains_char_app c (a b : string) :
  contains_char c (a ++ b) = contains_char c a || contains_char c b.
Proof.
  induction a as [|x a IH]; [done |].
  change (String x a ++ b) with (String x (a ++ b)).
  cbn [contains_char]. rewrite IH. by rewrite orb_assoc.
Qed.

Lemma filename_of_no_sep (t : datetime) :
  contains_char "/" (filename_of t) = false.
Proof.
  unfold filename_of, strftime, pad4, pad2.
  rewrite !contains_char_app. cbn [contains_char].
  rewrite !digit_char_not_sep. reflexivity.
Qed.

Lemma dirname_raw_no_sep (s : string) :
  contains_char "/" s = false -> dirname_raw s = "".
Proof. destruct s as [|c s]; [done |]. cbn [dirname_raw]. by intros ->. Qed.

Lemma dirname_raw_app (a b : string) :
  contains_char "/" b = false ->
  dirname_raw (a ++ String "/" b) = a ++ "/".
Proof.
  intros Hb. induction a as [|x a IH].
  - change (dirname_raw (String "/" b) = "/").
    cbn [dirname_raw contains_char]. change (Ascii.eqb "/" "/") with true.
    cbn [orb]. by rewrite dirname_raw_no_sep.
  - change (String x a ++ String "/" b) with (String x (a ++ String "/" b)).
    cbn [dirname_raw]. rewrite IH.
    replace (contains_char "/" (String x (a ++ String "/" b))) with true; [done |].
    cbn [contains_char]. rewrite contains_char_app. cbn [contains_char].
    change (Ascii.eqb "/" "/") with true. by rewrite !orb_true_r.
Qed.

(** [os.path.join('static', 'generated', filename)] and its [dirname]. *)
Lemma filepath_of (t : datetime) :
  path_join "static" ["generated"; filename_of t]
    = "static/generated/" ++ filename_of t /\
  dirname (path_join "static" ["generated"; filename_of t]) = "static/generated".
Proof.
  assert (Hjoin : path_join "static" ["generated"; filename_of t]
                  = "static/generated/" ++ filename_of t) by reflexivity.
  split; [exact Hjoin |]. rewrite Hjoin. unfold dirname.
  change ("static/generated/" ++ filename_of t)
    with ("static/generated" ++ String "/" (filename_of t)).
  rewrite dirname_raw_app by apply filename_of_no_sep. reflexivity.
Qed.

(** The padded fields read back as the numbers they print. *)
Lemma pad2_reads_back (n : Z) :
  0 <= n <= 99 -> digits 0 false (pad2 n) = Some n.
Proof.
  intros Hn. unfold pad2. cbn [digits]. rewrite !digit_value_digit_char.
  cbn [digits]. f_equal. Z.to_euclidean_division_equations. lia.
Qed.

Lemma pad4_reads_back (n : Z) :
  0 <= n <= 9999 -> digits 0 false (pad4 n) = Some n.
Proof.
  intros Hn. unfold pad4. cbn [digits]. rewrite !digit_value_digit_char.
  cbn [digits]. f_equal. Z.to_euclidean_division_equations. lia.
Qed.

Lemma pad2_inj (a b : Z) :
  0 <= a <= 99 -> 0 <= b <= 99 -> pad2 a = pad2 b -> a = b.
Proof.
  intros Ha Hb Heq. apply (f_equal (digits 0 false)) in Heq.
  rewrite !pad2_reads_back in Heq by done. by injection Heq.
Qed.

Lemma pad4_inj (a b : Z) :
  0 <= a <= 9999 -> 0 <= b <= 9999 -> pad4 a = pad4 b -> a = b.
Proof.
  intros Ha Hb Heq. apply (f_equal (digits 0 false)) in Heq.
  rewrite !pad4_reads_back in Heq by done. by injection Heq.
Qed.

Lemma strftime_length (t : datetime) : String.length (strftime t) = 15%nat.
Proof. reflexivity. Qed.

Lemma strftime_second (t1 t2 : datetime) :
  second_of t1 = second_of t2 -> strftime t1 = strftime t2.
Proof. unfold second_of, strftime. by intros [= -> -> -> -> -> ->]. Qed.

Lemma strftime_inj (t1 t2 : datetime) :
  valid_datetime t1 -> valid_datetime t2 ->
  strftime t1 = strftime t2 -> second_of t1 = second_of t2.
Proof.
  intros (Hy1 & Hm1 & Hd1 & Hh1 & Hmi1 & Hs1 & _)
         (Hy2 & Hm2 & Hd2 & Hh2 & Hmi2 & Hs2 & _) Heq.
  unfold strftime, pad4, pad2 in Heq. cbv [String.append] in Heq.
  injection Heq as Y3 Y2 Y1 Y0 M1 M0 D1 D0 H1 H0 MI1 MI0 S1 S0.
  assert (Hy : pad4 (year t1) = pad4 (year t2)) by (unfold pad4; congruence).
  assert (Hm : pad2 (month t1) = pad2 (month t2)) by (unfold pad2; congruence).
  assert (Hd : pad2 (day t1) = pad2 (day t2)) by (unfold pad2; congruence).
  assert (Hh : pad2 (hour t1) = pad2 (hour t2)) by (unfold pad2; congruence).
  assert (Hmi : pad2 (minute t1) = pad2 (minute t2)) by (unfold pad2; congruence).
  assert (Hs : pad2 (second t1) = pad2 (second t2)) by (unfold pad2; congruence).
  apply pad4_inj in Hy; [| lia | lia].
  apply pad2_inj in Hm; [| lia | lia]. apply pad2_inj in Hd; [| lia | lia].
  apply pad2_inj in Hh; [| lia | lia]. apply pad2_inj in Hmi; [| lia | lia].
  apply pad2_inj in Hs; [| lia | lia].
  unfold second_of. congruence.
Qed.

Lemma string_app_inv_head (a b c : string) : a ++ b = a ++ c -> b = c.
Proof.
  induction a as [|x a IH]; [done |].
  change (String x (a ++ b) = String x (a ++ c) -> b = c).
  intros [= H]. by apply IH.
Qed.

Lemma string_length_app (a b : string) :
  String.length (a ++ b) = (String.length a + String.length b)%nat.
Proof.
  induction a as [|x a IH]; [done |].
  change (String x a ++ b) with (String x (a ++ b)).
  cbn [String.length]. by rewrite IH.
Qed.

Lemma string_app_inv_tail (a b c : string) : a ++ c = b ++ c -> a = b.
Proof.
  revert b. induction a as [|x a IH]; intros [|y b] H.
  - reflexivity.
  - apply (f_equal String.length) in H.
    rewrite !string_length_app in H. cbn [String.length] in H. lia.
  - apply (f_equal String.length) in H.
    rewrite !string_length_app in H. cbn [String.length] in H. lia.
  - change (String x (a ++ c) = String y (b ++ c)) in H.
    injection H as -> H. f_equal. by apply IH.
Qed.

Lemma filename_of_inj (t1 t2 : datetime) :
  filename_of t1 = filename_of t2 -> strftime t1 = strftime t2.
Proof.
  unfold filename_of. intros H.
  apply string_app_inv_head in H. by apply string_app_inv_tail in H.
Qed.

(** ** Persisting the audio *)

Lemma call_returns_inv {A} (ev : event Inputs Audio) (ra : result A) w a w' :
  call ev ra w = (Returns a, w') -> ra = Returns a /\ w' = emit ev w.
Proof. unfold call. by intros [= -> <-]. Qed.

Lemma persist_returns_inv D m audio w filename w' :
  persist D m audio w = (Returns filename, w') ->
  filename = filename_of (now D) /\
  exists on_cpu samples,
    cpu D audio = Returns on_cpu /\
    squeeze0 D on_cpu = Returns samples /\
    files w' = <["static/generated/" ++ filename := Wav samples (sampling_rate m)]>
                 (files w) /\
    "static/generated" ∈ dirs w' /\
    dirs w ⊆ dirs w' /\
    trace w'
    = (trace w ++ [EvNow; EvMakedirs "static/generated";
                   EvLog INFO (Msg "Saving generated audio...");
                   EvCpu audio; EvSqueeze on_cpu;
                   EvSave ("static/generated/" ++ filename) samples
                     (sampling_rate m)])%list.
Proof.
  unfold persist. intros H.
  apply bind_returns_inv in H as (t & w1 & Hnow & H).
  apply call_returns_inv in Hnow as [[= <-] ->].
  cbv zeta in H. destruct (filepath_of (now D)) as [Hpath Hdir].
  rewrite Hdir, Hpath in H.
  apply bind_returns_inv in H as (u1 & w2 & Hmk & H).
  apply makedirs_returns_inv in Hmk as (Hf2 & Ht2 & Hd2 & Hall).
  apply bind_returns_inv in H as (u2 & w3 & Hlog & H).
  apply call_returns_inv in Hlog as [_ ->].
  apply bind_returns_inv in H as (on_cpu & w4 & Hcpu & H).
  apply call_returns_inv in Hcpu as [Hcpu ->].
  apply bind_returns_inv in H as (samples & w5 & Hsq & H).
  apply call_returns_inv in Hsq as [Hsq ->].
  apply bind_returns_inv in H as (u3 & w6 & Hsave & H).
  apply save_returns_inv in Hsave as (Hf6 & Hd6 & Ht6).
  cbn in H. injection H as <- <-.
  split; [reflexivity |]. exists on_cpu, samples.
  cbn in Hf6, Hd6, Ht6. rewrite Hf6, Hd6, Ht6, Hf2, Ht2. cbn.
  repeat split; try done.
  - apply Hall. apply list_elem_of_In. vm_compute. auto.
  - by rewrite <- !app_assoc.
Qed.

(** ** The shape of a run *)

Lemma try_block_returns_inv D m p w r w' :
  try_block D m p w = (Returns r, w') ->
  exists description duration w1 inputs w2 audio w3 filename w4,
    read_input D w = (Returns (description, duration), w1) /\
    process_text D p description w1 = (Returns inputs, w2) /\
    synthesize m inputs duration w2 = (Returns audio, w3) /\
    persist D m audio w3 = (Returns filename, w4) /\
    w' = emit (EvLog INFO (Msg "Generation completed successfully!")) w4 /\
    r = success_response filename.
Proof.
  unfold try_block. intros H.
  apply bind_returns_inv in H as ([description duration] & w1 & H1 & H).
  apply bind_returns_inv in H as (inputs & w2 & H2 & H).
  apply bind_returns_inv in H as (audio & w3 & H3 & H).
  apply bind_returns_inv in H as (filename & w4 & H4 & H).
  exists description, duration, w1, inputs, w2, audio, w3, filename, w4.
  cbn in H. injection H as <- <-. repeat split; assumption || reflexivity.
Qed.

Lemma generate_music_well_formed D w :
  exists r w', generate_music D w = (Returns r, w') /\ well_formed r.
Proof.
  unfold generate_music.
  destruct (model D) as [m|]; [destruct (processor D) as [p|] |].
  - destruct (try_block D m p w) as [[r|e] w1] eqn:Hrun.
    + exists r, w1. split; [by apply try_except_returns |].
      apply try_block_returns_inv in Hrun
        as (? & ? & ? & ? & ? & ? & ? & filename & ? & _ & _ & _ & _ & _ & ->).
      constructor.
    + eexists _, _. split; [by erewrite try_except_raises |]. constructor.
  - eexists _, _. split; [reflexivity | constructor].
  - eexists _, _. split; [reflexivity | constructor].
Qed.

Lemma generate_music_200_inv D w r w' :
  generate_music D w = (Returns r, w') -> status_code r = 200 ->
  exists m p,
    model D = Some m /\ processor D = Some p /\
    try_block D m p w = (Returns r, w').
Proof.
  unfold generate_music. intros Hrun Hcode.
  destruct (model D) as [m|]; [destruct (processor D) as [p|] |].
  - exists m, p. repeat split.
    unfold try_except in Hrun.
    destruct (try_block D m p w) as [[r1|e] w1]; [exact Hrun |].
    cbn in Hrun. injection Hrun as <- _. discriminate Hcode.
  - cbn in Hrun. injection Hrun as <- _. discriminate Hcode.
  - cbn in Hrun. injection Hrun as <- _. discriminate Hcode.
Qed.

(** What a run of the [try] block that returns has done. *)
Lemma try_block_success D m p w r w' :
  try_block D m p w = (Returns r, w') ->
  r = success_response (filename_of (now D)) /\
  exists samples evs audio on_cpu,
    files w' = <["static/generated/" ++ filename_of (now D)
                 := Wav samples (sampling_rate m)]> (files w) /\
    "static/generated" ∈ dirs w' /\
    dirs w ⊆ dirs w' /\
    trace w'
    = (trace w ++ evs
         ++ [EvNow; EvMakedirs "static/generated";
             EvLog INFO (Msg "Saving generated audio...");
             EvCpu audio; EvSqueeze on_cpu;
             EvSave ("static/generated/" ++ filename_of (now D)) samples
               (sampling_rate m);
             EvLog INFO (Msg "Generation completed successfully!")])%list.
Proof.
  intros H.
  apply try_block_returns_inv in H
    as (description & duration & w1 & inputs & w2 & audio & w3 & filename & w4
        & H1 & H2 & H3 & H4 & -> & ->).
  apply persist_returns_inv in H4
    as (-> & on_cpu & samples & _ & _ & Hf & Hd & Hsub & Ht).
  destruct (emits_read_input D w) as [evs1 E1]. rewrite H1 in E1. cbn in E1.
  destruct (emits_process_text D p description w1) as [evs2 E2].
  rewrite H2 in E2. cbn in E2.
  destruct (emits_synthesize m inputs duration w2) as [evs3 E3].
  rewrite H3 in E3. cbn in E3. subst w1 w2 w3. cbn in Hf, Hd, Hsub, Ht.
  split; [reflexivity |].
  exists samples, (evs1 ++ evs2 ++ evs3)%list, audio, on_cpu. cbn.
  rewrite Hf, Ht. repeat split; try done.
  rewrite <- !app_assoc. reflexivity.
Qed.

(** ** Reading the request *)

Lemma synthesize_run m inputs duration w :
  synthesize m inputs duration w
  = (generate m (generate_kwargs inputs duration),
     emit (EvGenerate (generate_kwargs inputs duration))
       (emit (EvLog INFO (Msg "Generating audio (this may take a while)...")) w)).
Proof. reflexivity. Qed.

Lemma read_input_dict D fields w :
  request_json D = Returns (VDict fields) ->
  read_input D w =
    match int (default (VInt 10) (fields !! "duration")) with
    | Returns n =>
        (Returns (default (VStr "") (fields !! "description"), n),
         emit_all [EvRequestJson; EvRequestJson;
                   EvLog INFO
                     (MsgGenerating (default (VStr "") (fields !! "description")) n)]
           w)
    | Raises e => (Raises e, emit_all [EvRequestJson; EvRequestJson] w)
    end.
Proof.
  intros Hreq. unfold read_input, bind, call, lift, log, get. rewrite Hreq.
  destruct (fields !! "description") as [description|];
    destruct (fields !! "duration") as [raw|]; cbn [default];
    unfold emit_all, emit, ret; cbn -[int];
    match goal with |- context [int ?v] => destruct (int v) end;
    unfold emit; cbn; rewrite <- ?app_assoc; reflexivity.
Qed.

(** The run after the text processor has answered: [generate], and then
    either the [except] block or the rest of the [try] block. *)
Lemma generate_music_from_inputs D m p w description duration w1 inputs w2 :
  model D = Some m -> processor D = Some p ->
  read_input D w = (Returns (description, duration), w1) ->
  process_text D p description w1 = (Returns inputs, w2) ->
  generate_music D w
  = try_except
      (bind (synthesize m inputs duration) (fun audio_values =>
       bind (persist D m audio_values) (fun filename =>
       bind (log INFO (Msg "Generation completed successfully!")) (fun _ =>
       ret (success_response filename)))))
      except_block w2.
Proof.
  intros Hm Hp H1 H2. unfold generate_music. rewrite Hm, Hp.
  unfold try_except, try_block.
  rewrite (bind_returns _ _ _ _ _ H1). cbn [fst snd].
  rewrite (bind_returns _ _ _ _ _ H2). reflexivity.
Qed.

Lemma appends_persist D m audio : appends (persist D m audio).
Proof.
  unfold persist, log.
  repeat first
    [ apply appends_makedirs | apply appends_save
    | apply appends_bind; [| intros ?]
    | apply appends_ret | apply appends_call
    | progress cbv zeta ].
Qed.

(** Once the processor has answered, the trace continues with the call of
    [generate] on its answer and the budget [duration * 50]. *)
Lemma run_calls_generate D m p w description duration w1 inputs w2 :
  model D = Some m -> processor D = Some p ->
  read_input D w = (Returns (description, duration), w1) ->
  process_text D p description w1 = (Returns inputs, w2) ->
  exists evs,
    trace (snd (generate_music D w))
    = (trace w2
         ++ [EvLog INFO (Msg "Generating audio (this may take a while)...");
             EvGenerate {| inputs := inputs; max_length := duration * 50;
                           do_sample := true |}]
         ++ evs)%list.
Proof.
  intros Hm Hp H1 H2.
  rewrite (generate_music_from_inputs D m p w _ _ _ _ _ Hm Hp H1 H2).
  unfold try_except, bind at 1. rewrite synthesize_run.
  fold (generate_kwargs inputs duration).
  set (w3 := emit _ (emit _ w2)).
  assert (Ht3 : trace w3
                = (trace w2
                     ++ [EvLog INFO (Msg "Generating audio (this may take a while)...");
                         EvGenerate (generate_kwargs inputs duration)])%list).
  { subst w3. cbn. by rewrite <- app_assoc. }
  destruct (generate m (generate_kwargs inputs duration)) as [audio|e].
  - assert (Happ : appends
              (try_except
                 (bind (persist D m audio) (fun filename =>
                  bind (log INFO (Msg "Generation completed successfully!"))
                    (fun _ => ret (success_response filename))))
                 except_block)).
    { apply appends_try_except; [| intros; apply emits_appends, emits_except_block].
      apply appends_bind; [apply appends_persist | intros filename].
      apply emits_appends. unfold log. solve_emits. }
    destruct (Happ w3) as [evs Hevs]. exists evs.
    unfold try_except in Hevs. cbn beta iota.
    etransitivity; [exact Hevs |]. by rewrite Ht3, <- app_assoc.
  - destruct (emits_except_block e w3) as [evs Hevs]. exists evs.
    rewrite Hevs. cbn [emit_all trace]. by rewrite Ht3, <- app_assoc.
Qed.

(** ** Initialisation *)

(** The two globals are bound together: after start-up either both hold an
    object or both are [None]. *)
Lemma startup_both_or_neither (lp : result (processor_t Inputs))
    (lm : result (model_t Inputs Audio)) cuda mv :
  (exists p m, startup lp lm cuda mv = (Some p, Some m)) \/
  startup lp lm cuda mv = (None, None).
Proof.
  unfold startup. destruct lp as [p|]; [| by right].
  destruct lm as [m|]; [| by right].
  destruct cuda; [destruct (mv m) as [m'|] |]; eauto.
Qed.

(** C1. While [model] or [processor] is [None], every request is answered
    with HTTP 500, status "error" and the fixed message 'Model not
    initialized properly'; the answer is the same for every request body,
    and the world is left as it was: no event, so the request was not
    read. *)
Theorem uninitialized_short_circuit D w :
  model D = None \/ processor D = None ->
  exists r,
    generate_music D w = (Returns r, w) /\
    status_code r = 500 /\
    body r = <["status" := VStr "error"]>
               (<["message" := VStr "Model not initialized properly"]> ∅) /\
    forall req, generate_music (with_request D req) w = (Returns r, w).
Proof.
  intros Hnone. exists (error_response "Model not initialized properly").
  assert (Hrun : forall D', model D' = model D -> processor D' = processor D ->
            generate_music D' w
            = (Returns (error_response "Model not initialized properly"), w)).
  { intros D' Hm Hp. unfold generate_music. rewrite Hm, Hp.
    destruct Hnone as [-> | ->]; [reflexivity |].
    destruct (model D); reflexivity. }
  repeat split; [by apply Hrun | by intros req; apply Hrun].
Qed.

(** ** The length budget *)

Lemma budgets_snoc (tr : list (event Inputs Audio)) ev :
  budgets (tr ++ [ev]) = (budgets tr ++ from_option (fun n => [n]) [] (budget_of ev))%list.
Proof.
  unfold budgets. rewrite omap_app. cbn. destruct (budget_of ev); reflexivity.
Qed.

(** C3. The length budget handed to the model for a duration [d] is
    [d * 50]; the budget for [2 * d] is twice the budget for [d]. *)
Theorem budget_is_fifty_times_duration m inputs (d : Z) w :
  budgets (trace (snd (synthesize m inputs d w)))
    = (budgets (trace w) ++ [d * 50])%list /\
  budgets (trace (snd (synthesize m inputs (2 * d) w)))
    = (budgets (trace w) ++ [2 * (d * 50)])%list /\
  max_length (generate_kwargs inputs (2 * d))
    = 2 * max_length (generate_kwargs inputs d).
Proof.
  rewrite !synthesize_run. cbn [snd emit trace].
  rewrite !budgets_snoc. cbn.
  rewrite !app_nil_r.
  replace (2 * d * 50) with (2 * (d * 50)) by lia.
  repeat split; reflexivity.
Qed.

(** ** Runs that differ in the trace only *)

Lemma same_fs_emit_all (evs1 evs2 : list (event Inputs Audio)) w1 w2 :
  same_fs w1 w2 -> same_fs (emit_all evs1 w1) (emit_all evs2 w2).
Proof. by intros [? ?]. Qed.

Lemma agree_ret {A} (a : A) :
  agree (ret (Inputs:=Inputs) (Audio:=Audio) a) (ret a).
Proof. by intros w1 w2 H. Qed.

Lemma agree_call {A} (ev1 ev2 : event Inputs Audio) (r1 r2 : result A) :
  r1 = r2 -> agree (call ev1 r1) (call ev2 r2).
Proof. intros -> w1 w2 [? ?]. by split. Qed.

Lemma agree_bind {A B} (c1 c2 : M Inputs Audio A) (k1 k2 : A -> M Inputs Audio B) :
  agree c1 c2 -> (forall a, agree (k1 a) (k2 a)) ->
  agree (bind c1 k1) (bind c2 k2).
Proof.
  intros Hc Hk w1 w2 Hw. unfold bind. destruct (Hc w1 w2 Hw) as [Hr Hs].
  destruct (c1 w1) as [[a1|e1] w1'], (c2 w2) as [[a2|e2] w2'];
    cbn in Hr, Hs; try discriminate.
  - injection Hr as ->. by apply Hk.
  - injection Hr as ->. by split.
Qed.

Lemma agree_try_except {A} (c1 c2 : M Inputs Audio A) h1 h2 :
  agree c1 c2 -> (forall e, agree (h1 e) (h2 e)) ->
  agree (try_except c1 h1) (try_except c2 h2).
Proof.
  intros Hc Hh w1 w2 Hw. unfold try_except. destruct (Hc w1 w2 Hw) as [Hr Hs].
  destruct (c1 w1) as [[a1|e1] w1'], (c2 w2) as [[a2|e2] w2'];
    cbn in Hr, Hs; try discriminate.
  - split; [exact Hr | exact Hs].
  - injection Hr as ->. by apply Hh.
Qed.

Lemma agree_mkdirs fault path todo :
  agree (mkdirs (Inputs:=Inputs) (Audio:=Audio) fault path todo)
        (mkdirs fault path todo).
Proof.
  induction todo as [|q rest IH]; intros w1 w2 [Hd Hf]; [by split |].
  cbn [mkdirs]. rewrite Hd, Hf.
  destruct (decide (q ∈ dirs w2)); [by apply IH |].
  destruct (files w2 !! q); [by split |].
  destruct (fault q); [by split |].
  apply IH. by split.
Qed.

Lemma agree_makedirs D path : agree (makedirs D path) (makedirs D path).
Proof.
  unfold makedirs. apply agree_bind; [by apply agree_call | intros _].
  apply agree_mkdirs.
Qed.

Lemma agree_save D path samples rate :
  agree (save D path samples rate) (save D path samples rate).
Proof.
  unfold save. apply agree_bind; [by apply agree_call | intros _].
  intros w1 w2 [Hd Hf]. rewrite Hd, Hf.
  repeat case_decide; try by split.
  destruct (save_fault D path samples rate) as [[e []]|]; by split.
Qed.

Ltac solve_agree :=
  repeat first
    [ apply agree_makedirs | apply agree_save
    | apply agree_try_except; [| intros ?]
    | apply agree_bind; [| intros ?]
    | apply agree_ret
    | apply agree_call; (reflexivity || assumption)
    | match goal with |- agree (if ?b then _ else _) _ => destruct b end
    | progress cbv zeta ].

(** Everything after [read_input], for a description and a duration. *)
Lemma agree_after_input D m p d1 d2 duration :
  processor_call p (processor_kwargs d1) = processor_call p (processor_kwargs d2) ->
  agree
    (try_except
       (bind (process_text D p d1) (fun inputs =>
        bind (synthesize m inputs duration) (fun audio_values =>
        bind (persist D m audio_values) (fun filename =>
        bind (log INFO (Msg "Generation completed successfully!")) (fun _ =>
        ret (success_response filename))))))
       except_block)
    (try_except
       (bind (process_text D p d2) (fun inputs =>
        bind (synthesize m inputs duration) (fun audio_values =>
        bind (persist D m audio_values) (fun filename =>
        bind (log INFO (Msg "Generation completed successfully!")) (fun _ =>
        ret (success_response filename))))))
       except_block).
Proof.
  intros Hproc. unfold process_text, synthesize, persist, except_block, log.
  solve_agree.
Qed.

Lemma generate_music_from_input D m p w description duration w1 :
  model D = Some m -> processor D = Some p ->
  read_input D w = (Returns (description, duration), w1) ->
  generate_music D w
  = try_except
      (bind (process_text D p description) (fun inputs =>
       bind (synthesize m inputs duration) (fun audio_values =>
       bind (persist D m audio_values) (fun filename =>
       bind (log INFO (Msg "Generation completed successfully!")) (fun _ =>
       ret (success_response filename))))))
      except_block w1.
Proof.
  intros Hm Hp H1. unfold generate_music. rewrite Hm, Hp.
  unfold try_except, try_block.
  rewrite (bind_returns _ _ _ _ _ H1). reflexivity.
Qed.

(** ** Failures *)

(** C2. When the call of [generate] raises [e], the request is answered
    with HTTP 500, status "error" and [str(e)] as the message; the files and
    directories are those from before the request, and after the call of
    [generate] the trace holds nothing but the error log record. *)
Theorem generation_failure_reported D m p w description duration w1 inputs w2 e :
  model D = Some m -> processor D = Some p ->
  read_input D w = (Returns (description, duration), w1) ->
  process_text D p description w1 = (Returns inputs, w2) ->
  generate m (generate_kwargs inputs duration) = Raises e ->
  exists r w',
    generate_music D w = (Returns r, w') /\
    status_code r = 500 /\
    body r = <["status" := VStr "error"]> (<["message" := VStr (exc_str e)]> ∅) /\
    files w' = files w /\
    dirs w' = dirs w /\
    trace w'
    = (trace w2
         ++ [EvLog INFO (Msg "Generating audio (this may take a while)...");
             EvGenerate (generate_kwargs inputs duration);
             EvLog ERROR (Msg ("Error during generation: " ++ exc_str e))])%list.
Proof.
  intros Hm Hp H1 H2 Hgen.
  rewrite (generate_music_from_inputs D m p w _ _ _ _ _ Hm Hp H1 H2).
  unfold try_except, bind at 1. rewrite synthesize_run, Hgen.
  destruct (emits_read_input D w) as [evs1 E1]. rewrite H1 in E1. cbn in E1.
  destruct (emits_process_text D p description w1) as [evs2 E2].
  rewrite H2 in E2. cbn in E2. subst w1 w2.
  eexists _, _. split; [reflexivity |]. cbn.
  repeat split. by rewrite <- !app_assoc.
Qed.

(** C9. A [duration] that [int] rejects ends the request in the [except]
    block: HTTP 500 (not a 4xx code), status "error", and the text of the
    exception [int] raised as the message.  The handler returns: nothing
    propagates to the server. *)
Theorem uncoercible_duration_is_server_error D m p fields raw e w :
  model D = Some m -> processor D = Some p ->
  request_json D = Returns (VDict fields) ->
  fields !! "duration" = Some raw ->
  int raw = Raises e ->
  exists r w',
    generate_music D w = (Returns r, w') /\
    status_code r = 500 /\
    ~ (400 <= status_code r < 500) /\
    body r = <["status" := VStr "error"]> (<["message" := VStr (exc_str e)]> ∅) /\
    files w' = files w /\
    trace w'
    = (trace w
         ++ [EvRequestJson; EvRequestJson;
             EvLog ERROR (Msg ("Error during generation: " ++ exc_str e))])%list.
Proof.
  intros Hm Hp Hreq Hraw Hint.
  pose proof (read_input_dict D fields w Hreq) as Hread.
  rewrite Hraw in Hread.
  change (default (VInt 10) (Some raw)) with raw in Hread.
  rewrite Hint in Hread.
  unfold generate_music. rewrite Hm, Hp.
  erewrite try_except_raises
    by (unfold try_block; erewrite bind_raises; [reflexivity | exact Hread]).
  eexists _, _. split; [reflexivity |]. cbn.
  repeat split; [lia | by rewrite <- !app_assoc].
Qed.

(** ** The input *)

(** *** [int] on decimal numerals *)

Lemma is_space_digit_char (d : Z) : is_space (digit_char d) = false.
Proof.
  pose proof (digit_char_cases d) as H.
  repeat (apply elem_of_cons in H as [-> | H]; [reflexivity |]).
  by apply elem_of_nil in H.
Qed.










Lemma process_text_trace D p description w :
  exists evs,
    trace (snd (process_text D p description w))
    = (trace w
         ++ [EvLog INFO (Msg "Processing text input...");
             EvProcessor (processor_kwargs description)]
         ++ evs)%list.
Proof.
  unfold process_text, bind, log, call.
  destruct (processor_call p (processor_kwargs description)) as [inputs|e].
  - destruct (cuda_is_available D).
    + eexists [EvCudaIsAvailable; EvToCuda inputs]. cbn.
      by rewrite <- !app_assoc.
    + eexists [EvCudaIsAvailable]. cbn. by rewrite <- !app_assoc.
  - exists []. cbn. by rewrite <- !app_assoc.
Qed.

Lemma appends_after_process_text D m duration inputs :
  appends
    (try_except
       (bind (synthesize m inputs duration) (fun audio_values =>
        bind (persist D m audio_values) (fun filename =>
        bind (log INFO (Msg "Generation completed successfully!")) (fun _ =>
        ret (success_response filename)))))
       except_block).
Proof.
  apply appends_try_except; [| intros; apply emits_appends, emits_except_block].
  apply appends_bind; [apply emits_appends, emits_synthesize | intros audio].
  apply appends_bind; [apply appends_persist | intros filename].
  apply emits_appends. unfold log. solve_emits.
Qed.

(** Once the request is read, the trace continues with the call of the
    processor on the description. *)
Lemma run_calls_processor D m p w description duration w1 :
  model D = Some m -> processor D = Some p ->
  read_input D w = (Returns (description, duration), w1) ->
  exists evs,
    trace (snd (generate_music D w))
    = (trace w1
         ++ [EvLog INFO (Msg "Processing text input...");
             EvProcessor (processor_kwargs description)]
         ++ evs)%list.
Proof.
  intros Hm Hp H1.
  rewrite (generate_music_from_input D m p w _ _ _ Hm Hp H1).
  destruct (process_text_trace D p description w1) as [evs Hevs].
  unfold try_except, bind at 1.
  destruct (process_text D p description w1) as [[inputs|e] w2]; cbn in Hevs.
  - destruct (appends_after_process_text D m duration inputs w2) as [evs' H'].
    exists (evs ++ evs')%list. unfold try_except in H'.
    etransitivity; [exact H' |]. by rewrite Hevs, <- !app_assoc.
  - destruct (emits_except_block e w2) as [evs' ->].
    exists (evs ++ evs')%list. cbn. by rewrite Hevs, <- !app_assoc.
Qed.

(** C8. An empty description passes [read_input] like any other; the
    processor is called with [text = ['']]; what the processor returns for it
    is what [generate] is called with; and the answer and the file system
    are those of a request with any other description for which the
    processor answers the same. *)
Theorem empty_description_forwarded D m p fields n w :
  model D = Some m -> processor D = Some p ->
  request_json D = Returns (VDict fields) ->
  fields !! "description" = Some (VStr "") ->
  int (default (VInt 10) (fields !! "duration")) = Returns n ->
  exists w1,
    read_input D w = (Returns (VStr "", n), w1) /\
    (exists evs,
       trace (snd (generate_music D w))
       = (trace w1
            ++ [EvLog INFO (Msg "Processing text input...");
                EvProcessor {| text := [VStr ""]; padding := true;
                               return_tensors := "pt" |}]
            ++ evs)%list) /\
    (forall inputs w2,
       process_text D p (VStr "") w1 = (Returns inputs, w2) ->
       exists evs,
         trace (snd (generate_music D w))
         = (trace w2
              ++ [EvLog INFO (Msg "Generating audio (this may take a while)...");
                  EvGenerate {| inputs := inputs; max_length := n * 50;
                                do_sample := true |}]
              ++ evs)%list) /\
    (forall s : string,
       processor_call p (processor_kwargs (VStr s))
         = processor_call p (processor_kwargs (VStr "")) ->
       fst (generate_music
              (with_request D (Returns (VDict (<["description" := VStr s]> fields))))
              w)
         = fst (generate_music D w) /\
       same_fs
         (snd (generate_music
                 (with_request D (Returns (VDict (<["description" := VStr s]> fields))))
                 w))
         (snd (generate_music D w))).
Proof.
  intros Hm Hp Hreq Hdesc Hint.
  pose proof (read_input_dict D fields w Hreq) as Hread.
  rewrite Hint, Hdesc in Hread. cbn [default from_option id] in Hread.
  eexists. split; [exact Hread |]. split; [| split].
  - exact (run_calls_processor D m p w _ _ _ Hm Hp Hread).
  - intros inputs w2 Hproc.
    exact (run_calls_generate D m p w _ _ _ _ _ Hm Hp Hread Hproc).
  - intros s Hsame.
    set (D' := with_request D (Returns (VDict (<["description" := VStr s]> fields)))).
    pose proof (read_input_dict D' (<["description" := VStr s]> fields) w eq_refl)
      as Hread'.
    rewrite lookup_insert_eq, lookup_insert_ne in Hread' by done.
    rewrite Hint in Hread'. cbn [default from_option id] in Hread'.
    rewrite (generate_music_from_input D m p w _ _ _ Hm Hp Hread).
    rewrite (generate_music_from_input D' m p w _ _ _ Hm Hp Hread').
    apply (agree_after_input D m p (VStr s) (VStr "") n Hsame).
    by apply same_fs_emit_all.
Qed.

(** ** The output file *)

(** C5. A request answered with 200 has written its audio to
    [static/generated/generated_music_<YYYYMMDD_HHMMSS>.wav], the fields
    being those of [datetime.now()] down to the second, zero padded; the
    directory exists afterwards, and [makedirs] comes before [save] in the
    trace. *)
Theorem output_file_named_by_timestamp D w r w' :
  generate_music D w = (Returns r, w') ->
  status_code r = 200 ->
  valid_datetime (now D) ->
  exists m samples evs audio on_cpu,
    model D = Some m /\
    filename_of (now D)
    = "generated_music_"
        ++ pad4 (year (now D)) ++ pad2 (month (now D)) ++ pad2 (day (now D))
        ++ "_"
        ++ pad2 (hour (now D)) ++ pad2 (minute (now D)) ++ pad2 (second (now D))
        ++ ".wav" /\
    String.length (filename_of (now D)) = 35%nat /\
    (digits 0 false (pad4 (year (now D))) = Some (year (now D)) /\
     digits 0 false (pad2 (month (now D))) = Some (month (now D)) /\
     digits 0 false (pad2 (day (now D))) = Some (day (now D)) /\
     digits 0 false (pad2 (hour (now D))) = Some (hour (now D)) /\
     digits 0 false (pad2 (minute (now D))) = Some (minute (now D)) /\
     digits 0 false (pad2 (second (now D))) = Some (second (now D))) /\
    files w' !! ("static/generated/" ++ filename_of (now D))
      = Some (Wav samples (sampling_rate m)) /\
    "static/generated" ∈ dirs w' /\
    trace w'
    = (trace w ++ evs
         ++ [EvNow; EvMakedirs "static/generated";
             EvLog INFO (Msg "Saving generated audio...");
             EvCpu audio; EvSqueeze on_cpu;
             EvSave ("static/generated/" ++ filename_of (now D)) samples
               (sampling_rate m);
             EvLog INFO (Msg "Generation completed successfully!")])%list.
Proof.
  intros Hrun Hcode (Hy & Hmo & Hd & Hh & Hmi & Hs & _).
  apply generate_music_200_inv in Hrun as (m & p & Hm & Hp & Hrun); [| done].
  apply try_block_success in Hrun
    as (_ & samples & evs & audio & on_cpu & Hf & Hdir & _ & Ht).
  exists m, samples, evs, audio, on_cpu.
  split; [done |]. split; [reflexivity |]. split; [reflexivity |].
  split.
  { rewrite pad4_reads_back, !pad2_reads_back by lia. done. }
  split; [by rewrite Hf, lookup_insert_eq |]. done.
Qed.

(** C6. Two requests answered with 200: when their timestamps fall in
    different seconds the two file names differ, and when they fall in the
    same second the two file names are the same. *)
Theorem filenames_distinct_across_seconds
    (D1 D2 : Deps Inputs Audio) (w1 w2 : world Inputs Audio) r1 r2 w1' w2' :
  generate_music D1 w1 = (Returns r1, w1') -> status_code r1 = 200 ->
  generate_music D2 w2 = (Returns r2, w2') -> status_code r2 = 200 ->
  valid_datetime (now D1) -> valid_datetime (now D2) ->
  exists f1 f2,
    body r1 !! "file_path" = Some (VStr ("/static/generated/" ++ f1)) /\
    body r2 !! "file_path" = Some (VStr ("/static/generated/" ++ f2)) /\
    is_Some (files w1' !! ("static/generated/" ++ f1)) /\
    is_Some (files w2' !! ("static/generated/" ++ f2)) /\
    (second_of (now D1) <> second_of (now D2) -> f1 <> f2) /\
    (second_of (now D1) = second_of (now D2) -> f1 = f2).
Proof.
  intros Hrun1 Hc1 Hrun2 Hc2 Hv1 Hv2.
  apply generate_music_200_inv in Hrun1 as (m1 & p1 & _ & _ & Hrun1); [| done].
  apply generate_music_200_inv in Hrun2 as (m2 & p2 & _ & _ & Hrun2); [| done].
  apply try_block_success in Hrun1 as (-> & s1 & ? & ? & ? & Hf1 & _).
  apply try_block_success in Hrun2 as (-> & s2 & ? & ? & ? & Hf2 & _).
  exists (filename_of (now D1)), (filename_of (now D2)).
  rewrite Hf1, Hf2, !lookup_insert_eq.
  repeat split; try done.
  - intros Hne Heq. apply Hne, strftime_inj; [done | done |].
    by apply filename_of_inj.
  - intros Heq. unfold filename_of. by rewrite (strftime_second _ _ Heq).
Qed.

(** C7. When the [try] block returns, the answer is HTTP 200 with status
    "success" and [file_path] = '/static/generated/' + the name of the file
    the audio was saved under, which ends in '.wav'; that file is on disk
    when the handler returns, and no other path of the file system has
    changed. *)
Theorem success_names_the_saved_file D m p w r w' :
  model D = Some m -> processor D = Some p ->
  try_block D m p w = (Returns r, w') ->
  exists filename name samples,
    generate_music D w = (Returns r, w') /\
    status_code r = 200 /\
    body r = <["status" := VStr "success"]>
               (<["file_path" := VStr ("/static/generated/" ++ filename)]> ∅) /\
    filename = name ++ ".wav" /\
    files w' !! ("static/generated/" ++ filename)
      = Some (Wav samples (sampling_rate m)) /\
    (forall q, q <> "static/generated/" ++ filename ->
       files w' !! q = files w !! q).
Proof.
  intros Hm Hp Hrun.
  assert (Hgm : generate_music D w = (Returns r, w')).
  { unfold generate_music. rewrite Hm, Hp. by apply try_except_returns. }
  apply try_block_success in Hrun as (-> & samples & ? & ? & ? & Hf & _).
  exists (filename_of (now D)), ("generated_music_" ++ strftime (now D)), samples.
  split; [done |]. split; [reflexivity |]. split; [reflexivity |].
  split; [reflexivity |]. rewrite Hf.
  split; [by rewrite lookup_insert_eq |].
  intros q Hq. by rewrite lookup_insert_ne.
Qed.

(** ** The response *)

(** C10. Every request is answered; the body has a "status" that is either
    "success" or "error"; the code is 200 exactly when it is "success" and
    500 exactly when it is "error". *)
Theorem response_status_invariant D w :
  exists r w',
    generate_music D w = (Returns r, w') /\
    (body r !! "status" = Some (VStr "success") \/
     body r !! "status" = Some (VStr "error")) /\
    (status_code r = 200 <-> body r !! "status" = Some (VStr "success")) /\
    (status_code r = 500 <-> body r !! "status" = Some (VStr "error")).
Proof.
  destruct (generate_music_well_formed D w) as (r & w' & Hrun & Hwf).
  exists r, w'. split; [exact Hrun |].
  destruct Hwf as [filename | text].
  - destruct (success_response_fields filename) as (Hc & Hs & _).
    rewrite Hc, Hs. repeat split; (auto || discriminate).
  - destruct (error_response_fields text) as (Hc & Hs & _).
    rewrite Hc, Hs. repeat split; (auto || discriminate).
Qed.

End Properties.

(** * The properties on the sample deployment *)

Import Sample.

Lemma uninitialized_short_circuit_witness :
  (model (unloaded (json_body a_request)) = None \/
   processor (unloaded (json_body a_request)) = None) /\
  exists r,
    generate_music (unloaded (json_body a_request)) empty_world
      = (Returns r, empty_world) /\
    status_code r = 500 /\
    body r = <["status" := VStr "error"]>
               (<["message" := VStr "Model not initialized properly"]> ∅) /\
    forall req,
      generate_music (with_request (unloaded (json_body a_request)) req) empty_world
        = (Returns r, empty_world).
Proof.
  split; [left; reflexivity |].
  apply (uninitialized_short_circuit (unloaded (json_body a_request)) empty_world).
  left; reflexivity.
Defined.

Lemma generation_failure_reported_witness :
  model (overloaded (json_body a_request)) = Some (failing_model out_of_memory) /\
  processor (overloaded (json_body a_request)) = Some a_processor /\
  read_input (overloaded (json_body a_request)) empty_world
    = (Returns (VStr "calm piano", 5),
       snd (read_input (overloaded (json_body a_request)) empty_world)) /\
  process_text (overloaded (json_body a_request)) a_processor (VStr "calm piano")
      (snd (read_input (overloaded (json_body a_request)) empty_world))
    = (Returns [VStr "calm piano"],
       snd (process_text (overloaded (json_body a_request)) a_processor
              (VStr "calm piano")
              (snd (read_input (overloaded (json_body a_request)) empty_world)))) /\
  generate (failing_model out_of_memory)
      (generate_kwargs [VStr "calm piano"] 5) = Raises out_of_memory /\
  exists r w',
    generate_music (overloaded (json_body a_request)) empty_world = (Returns r, w') /\
    status_code r = 500 /\
    body r = <["status" := VStr "error"]>
               (<["message" := VStr (exc_str out_of_memory)]> ∅) /\
    files w' = files empty_world /\
    dirs w' = dirs empty_world /\
    trace w'
    = (trace (snd (process_text (overloaded (json_body a_request)) a_processor
                     (VStr "calm piano")
                     (snd (read_input (overloaded (json_body a_request))
                             empty_world))))
         ++ [EvLog INFO (Msg "Generating audio (this may take a while)...");
             EvGenerate (generate_kwargs [VStr "calm piano"] 5);
             EvLog ERROR (Msg ("Error during generation: " ++ exc_str out_of_memory))])%list.
Proof.
  assert (H1 : read_input (overloaded (json_body a_request)) empty_world
               = (Returns (VStr "calm piano", 5),
                  snd (read_input (overloaded (json_body a_request)) empty_world)))
    by (vm_compute; reflexivity).
  assert (H2 : process_text (overloaded (json_body a_request)) a_processor
                 (VStr "calm piano")
                 (snd (read_input (overloaded (json_body a_request)) empty_world))
               = (Returns [VStr "calm piano"],
                  snd (process_text (overloaded (json_body a_request)) a_processor
                         (VStr "calm piano")
                         (snd (read_input (overloaded (json_body a_request))
                                 empty_world)))))
    by (vm_compute; reflexivity).
  repeat (split; [first [reflexivity | exact H1 | exact H2] |]).
  exact (generation_failure_reported
           (overloaded (json_body a_request)) (failing_model out_of_memory)
           a_processor empty_world (VStr "calm piano") 5 _ [VStr "calm piano"] _
           out_of_memory eq_refl eq_refl H1 H2 eq_refl).
Defined.

Lemma uncoercible_duration_is_server_error_witness :
  model (loaded (json_body [("duration", VStr "abc")])) = Some a_model /\
  processor (loaded (json_body [("duration", VStr "abc")])) = Some a_processor /\
  request_json (loaded (json_body [("duration", VStr "abc")]))
    = Returns (VDict (json_fields [("duration", VStr "abc")])) /\
  json_fields [("duration", VStr "abc")] !! "duration" = Some (VStr "abc") /\
  int (VStr "abc")
    = Raises (Exc "ValueError" "invalid literal for int() with base 10: 'abc'") /\
  exists r w',
    generate_music (loaded (json_body [("duration", VStr "abc")])) empty_world
      = (Returns r, w') /\
    status_code r = 500 /\
    ~ (400 <= status_code r < 500) /\
    body r = <["status" := VStr "error"]>
               (<["message" := VStr "invalid literal for int() with base 10: 'abc'"]> ∅) /\
    files w' = files empty_world /\
    trace w'
    = (trace empty_world
         ++ [EvRequestJson; EvRequestJson;
             EvLog ERROR
               (Msg ("Error during generation: "
                       ++ "invalid literal for int() with base 10: 'abc'"))])%list.
Proof.
  repeat (split; [reflexivity |]).
  exact (uncoercible_duration_is_server_error
           (loaded (json_body [("duration", VStr "abc")])) a_model a_processor
           (json_fields [("duration", VStr "abc")]) (VStr "abc")
           (Exc "ValueError" "invalid literal for int() with base 10: 'abc'")
           empty_world eq_refl eq_refl eq_refl eq_refl eq_refl).
Defined.


(** The request of the sample deployment with duration -3: the handler goes
    on with -3 and asks the model for a budget of -150. *)
Lemma negative_duration_run :
  fst (read_input (loaded (json_body a_negative_duration)) empty_world) = Returns (VStr "", -3) /\
  budgets (trace (snd (generate_music (loaded (json_body a_negative_duration)) empty_world))) = [-150].
Proof. split; vm_compute; reflexivity. Qed.


Lemma a_time_valid : valid_datetime a_time.
Proof. unfold valid_datetime, a_time. cbn. lia. Qed.

Lemma a_later_time_valid : valid_datetime a_later_time.
Proof. unfold valid_datetime, a_later_time. cbn. lia. Qed.

Lemma loaded_run :
  generate_music (loaded (json_body a_request)) empty_world
  = (Returns (success_response "generated_music_20240517_090307.wav"),
     snd (generate_music (loaded (json_body a_request)) empty_world)).
Proof. vm_compute. reflexivity. Qed.

Lemma loaded_later_run :
  generate_music (loaded_later (json_body a_request)) empty_world
  = (Returns (success_response "generated_music_20240517_090308.wav"),
     snd (generate_music (loaded_later (json_body a_request)) empty_world)).
Proof. vm_compute. reflexivity. Qed.

Lemma output_file_named_by_timestamp_witness :
  generate_music (loaded (json_body a_request)) empty_world
  = (Returns (success_response "generated_music_20240517_090307.wav"),
     snd (generate_music (loaded (json_body a_request)) empty_world)) /\
  status_code (success_response "generated_music_20240517_090307.wav") = 200 /\
  valid_datetime a_time /\
  exists m samples evs audio on_cpu,
    model (loaded (json_body a_request)) = Some m /\
    filename_of a_time
    = "generated_music_"
        ++ pad4 (year a_time) ++ pad2 (month a_time) ++ pad2 (day a_time)
        ++ "_"
        ++ pad2 (hour a_time) ++ pad2 (minute a_time) ++ pad2 (second a_time)
        ++ ".wav" /\
    String.length (filename_of a_time) = 35%nat /\
    (digits 0 false (pad4 (year a_time)) = Some (year a_time) /\
     digits 0 false (pad2 (month a_time)) = Some (month a_time) /\
     digits 0 false (pad2 (day a_time)) = Some (day a_time) /\
     digits 0 false (pad2 (hour a_time)) = Some (hour a_time) /\
     digits 0 false (pad2 (minute a_time)) = Some (minute a_time) /\
     digits 0 false (pad2 (second a_time)) = Some (second a_time)) /\
    files (snd (generate_music (loaded (json_body a_request)) empty_world))
      !! ("static/generated/" ++ filename_of a_time)
      = Some (Wav samples (sampling_rate m)) /\
    "static/generated"
      ∈ dirs (snd (generate_music (loaded (json_body a_request)) empty_world)) /\
    trace (snd (generate_music (loaded (json_body a_request)) empty_world))
    = (trace empty_world ++ evs
         ++ [EvNow; EvMakedirs "static/generated";
             EvLog INFO (Msg "Saving generated audio...");
             EvCpu audio; EvSqueeze on_cpu;
             EvSave ("static/generated/" ++ filename_of a_time) samples
               (sampling_rate m);
             EvLog INFO (Msg "Generation completed successfully!")])%list.
Proof.
  split; [exact loaded_run |]. split; [reflexivity |].
  split; [exact a_time_valid |].
  exact (output_file_named_by_timestamp
           (loaded (json_body a_request)) empty_world _ _
           loaded_run eq_refl a_time_valid).
Defined.

Lemma filenames_distinct_across_seconds_witness :
  generate_music (loaded (json_body a_request)) empty_world
  = (Returns (success_response "generated_music_20240517_090307.wav"),
     snd (generate_music (loaded (json_body a_request)) empty_world)) /\
  status_code (success_response "generated_music_20240517_090307.wav") = 200 /\
  generate_music (loaded_later (json_body a_request)) empty_world
  = (Returns (success_response "generated_music_20240517_090308.wav"),
     snd (generate_music (loaded_later (json_body a_request)) empty_world)) /\
  status_code (success_response "generated_music_20240517_090308.wav") = 200 /\
  valid_datetime a_time /\
  valid_datetime a_later_time /\
  exists f1 f2,
    body (success_response "generated_music_20240517_090307.wav") !! "file_path"
      = Some (VStr ("/static/generated/" ++ f1)) /\
    body (success_response "generated_music_20240517_090308.wav") !! "file_path"
      = Some (VStr ("/static/generated/" ++ f2)) /\
    is_Some (files (snd (generate_music (loaded (json_body a_request)) empty_world))
               !! ("static/generated/" ++ f1)) /\
    is_Some (files (snd (generate_music (loaded_later (json_body a_request))
                           empty_world))
               !! ("static/generated/" ++ f2)) /\
    (second_of a_time <> second_of a_later_time -> f1 <> f2) /\
    (second_of a_time = second_of a_later_time -> f1 = f2).
Proof.
  split; [exact loaded_run |]. split; [reflexivity |].
  split; [exact loaded_later_run |]. split; [reflexivity |].
  split; [exact a_time_valid |]. split; [exact a_later_time_valid |].
  exact (filenames_distinct_across_seconds
           (loaded (json_body a_request)) (loaded_later (json_body a_request))
           empty_world empty_world _ _ _ _
           loaded_run eq_refl loaded_later_run eq_refl
           a_time_valid a_later_time_valid).
Defined.

Lemma loaded_try_block :
  try_block (loaded (json_body a_request)) a_model a_processor empty_world
  = (Returns (success_response "generated_music_20240517_090307.wav"),
     snd (generate_music (loaded (json_body a_request)) empty_world)).
Proof. vm_compute. reflexivity. Qed.

Lemma success_names_the_saved_file_witness :
  model (loaded (json_body a_request)) = Some a_model /\
  processor (loaded (json_body a_request)) = Some a_processor /\
  try_block (loaded (json_body a_request)) a_model a_processor empty_world
  = (Returns (success_response "generated_music_20240517_090307.wav"),
     snd (generate_music (loaded (json_body a_request)) empty_world)) /\
  exists filename name samples,
    generate_music (loaded (json_body a_request)) empty_world
    = (Returns (success_response "generated_music_20240517_090307.wav"),
       snd (generate_music (loaded (json_body a_request)) empty_world)) /\
    status_code (success_response "generated_music_20240517_090307.wav") = 200 /\
    body (success_response "generated_music_20240517_090307.wav")
    = <["status" := VStr "success"]>
        (<["file_path" := VStr ("/static/generated/" ++ filename)]> ∅) /\
    filename = name ++ ".wav" /\
    files (snd (generate_music (loaded (json_body a_request)) empty_world))
      !! ("static/generated/" ++ filename)
      = Some (Wav samples (sampling_rate a_model)) /\
    (forall q, q <> "static/generated/" ++ filename ->
       files (snd (generate_music (loaded (json_body a_request)) empty_world)) !! q
       = files empty_world !! q).
Proof.
  split; [reflexivity |]. split; [reflexivity |].
  split; [exact loaded_try_block |].
  exact (success_names_the_saved_file
           (loaded (json_body a_request)) a_model a_processor empty_world _ _
           eq_refl eq_refl loaded_try_block).
Defined.

Lemma empty_description_forwarded_witness :
  model (loaded (json_body an_empty_request)) = Some a_model /\
  processor (loaded (json_body an_empty_request)) = Some a_processor /\
  request_json (loaded (json_body an_empty_request))
    = Returns (VDict (json_fields an_empty_request)) /\
  json_fields an_empty_request !! "description" = Some (VStr "") /\
  int (default (VInt 10) (json_fields an_empty_request !! "duration")) = Returns 5 /\
  exists w1,
    read_input (loaded (json_body an_empty_request)) empty_world
      = (Returns (VStr "", 5), w1) /\
    (exists evs,
       trace (snd (generate_music (loaded (json_body an_empty_request)) empty_world))
       = (trace w1
            ++ [EvLog INFO (Msg "Processing text input...");
                EvProcessor {| text := [VStr ""]; padding := true;
                               return_tensors := "pt" |}]
            ++ evs)%list) /\
    (forall inputs w2,
       process_text (loaded (json_body an_empty_request)) a_processor (VStr "") w1
         = (Returns inputs, w2) ->
       exists evs,
         trace (snd (generate_music (loaded (json_body an_empty_request))
                       empty_world))
         = (trace w2
              ++ [EvLog INFO (Msg "Generating audio (this may take a while)...");
                  EvGenerate {| inputs := inputs; max_length := 5 * 50;
                                do_sample := true |}]
              ++ evs)%list) /\
    (forall s : string,
       processor_call a_processor (processor_kwargs (VStr s))
         = processor_call a_processor (processor_kwargs (VStr "")) ->
       fst (generate_music
              (with_request (loaded (json_body an_empty_request))
                 (Returns (VDict (<["description" := VStr s]>
                                    (json_fields an_empty_request)))))
              empty_world)
         = fst (generate_music (loaded (json_body an_empty_request)) empty_world) /\
       same_fs
         (snd (generate_music
                 (with_request (loaded (json_body an_empty_request))
                    (Returns (VDict (<["description" := VStr s]>
                                       (json_fields an_empty_request)))))
                 empty_world))
         (snd (generate_music (loaded (json_body an_empty_request)) empty_world))).
Proof.
  repeat (split; [reflexivity |]).
  exact (empty_description_forwarded
           (loaded (json_body an_empty_request)) a_model a_processor
           (json_fields an_empty_request) 5 empty_world
           eq_refl eq_refl eq_refl eq_refl eq_refl).
Defined.

(** * Further properties of the handler, the start-up and the main block *)

Section Extras.

Context {Inputs Audio : Type}.

Implicit Types (D : Deps Inputs Audio) (w : world Inputs Audio).
Implicit Types (m : model_t Inputs Audio) (p : processor_t Inputs).
Implicit Types (e : exc) (r : response).

(** ** Start-up and the guard *)

(** X1. If loading the processor, loading the model or moving the model to
    the GPU raises at start-up, both globals are [None] and every request
    gets the fixed 'Model not initialized properly' answer. *)
Theorem failed_startup_disables_generate
    (lp : result (processor_t Inputs)) (lm : result (model_t Inputs Audio))
    (cuda : bool) (mv : model_t Inputs Audio -> result (model_t Inputs Audio))
    D w :
  (processor D, model D) = startup lp lm cuda mv ->
  ((exists e, lp = Raises e) \/ (exists e, lm = Raises e) \/
   (cuda = true /\ exists m e, lm = Returns m /\ mv m = Raises e)) ->
  processor D = None /\ model D = None /\
  generate_music D w
    = (Returns (error_response "Model not initialized properly"), w).
Proof.
  intros Hstart Hfail.
  assert (Hnone : startup lp lm cuda mv = (None, None)).
  { unfold startup.
    destruct Hfail as [[e ->] | [[e ->] | (-> & m & e & -> & Hmv)]].
    - reflexivity.
    - by destruct lp.
    - destruct lp; [by rewrite Hmv | reflexivity]. }
  rewrite Hnone in Hstart. injection Hstart as Hp Hm.
  repeat split; try done. unfold generate_music. by rewrite Hm.
Qed.

Lemma read_input_trace D w :
  exists evs,
    trace (snd (read_input D w)) = (trace w ++ EvRequestJson :: evs)%list.
Proof.
  unfold read_input, bind, call, lift, log, ret.
  destruct (request_json D) as [v|e]; [| by exists []].
  destruct (get v "description" (VStr "")) as [d|e]; [| by exists []].
  destruct (get v "duration" (VInt 10)) as [raw|e];
    [destruct (int raw) |];
    eexists; cbn; rewrite <- ?app_assoc; reflexivity.
Qed.

Lemma try_bind_extends {A B} (c : M Inputs Audio A) (K : A -> M Inputs Audio B) h w :
  (forall a, appends (try_except (K a) h)) -> (forall e, appends (h e)) ->
  exists evs,
    trace (snd (try_except (bind c K) h w)) = (trace (snd (c w)) ++ evs)%list.
Proof.
  intros HK Hh. unfold try_except, bind at 1.
  destruct (c w) as [[a|e] w1]; cbn [snd].
  - destruct (HK a w1) as [evs Hevs]. by exists evs.
  - destruct (Hh e w1) as [evs Hevs]. by exists evs.
Qed.

Lemma appends_after_read_input D m p (input : value * Z) :
  appends
    (try_except
       (bind (process_text D p (fst input)) (fun inputs =>
        bind (synthesize m inputs (snd input)) (fun audio_values =>
        bind (persist D m audio_values) (fun filename =>
        bind (log INFO (Msg "Generation completed successfully!")) (fun _ =>
        ret (success_response filename))))))
       except_block).
Proof.
  apply appends_try_except; [| intros; apply emits_appends, emits_except_block].
  apply appends_bind; [apply emits_appends, emits_process_text | intros inputs].
  apply appends_bind; [apply emits_appends, emits_synthesize | intros audio].
  apply appends_bind; [apply appends_persist | intros filename].
  apply appends_bind; [apply appends_call | intros _; apply appends_ret].
Qed.

Lemma run_reads_request D m p w :
  model D = Some m -> processor D = Some p ->
  exists evs,
    trace (snd (generate_music D w)) = (trace w ++ EvRequestJson :: evs)%list.
Proof.
  intros Hm Hp. unfold generate_music. rewrite Hm, Hp. unfold try_block.
  destruct (try_bind_extends (read_input D) _ except_block w
              (appends_after_read_input D m p)
              (fun e => emits_appends _ (emits_except_block e))) as [evs Hevs].
  destruct (read_input_trace D w) as [evs0 Hevs0].
  exists (evs0 ++ evs)%list. rewrite Hevs, Hevs0. by rewrite <- app_assoc.
Qed.

(** X2. If nothing raises at start-up, the globals hold the processor and
    the model (the GPU copy exactly when CUDA is available), and every
    request passes the guard: the first thing the handler does is read the
    request body. *)
Theorem successful_startup_reads_request
    (lp : result (processor_t Inputs)) (lm : result (model_t Inputs Audio))
    (cuda : bool) (mv : model_t Inputs Audio -> result (model_t Inputs Audio))
    p m m' D w :
  (processor D, model D) = startup lp lm cuda mv ->
  lp = Returns p -> lm = Returns m ->
  (if cuda then mv m = Returns m' else m' = m) ->
  processor D = Some p /\ model D = Some m' /\
  exists evs,
    trace (snd (generate_music D w)) = (trace w ++ EvRequestJson :: evs)%list.
Proof.
  intros Hstart -> -> Hmv. unfold startup in Hstart.
  assert (Hglob : processor D = Some p /\ model D = Some m').
  { destruct cuda; [rewrite Hmv in Hstart | subst m']; by injection Hstart. }
  destruct Hglob as [Hp Hm]. repeat split; try done.
  by apply (run_reads_request D m' p).
Qed.

(** ** Requests that fail before the model is called *)

(** X3. If Flask cannot produce [request.json] (wrong content type, malformed
    JSON), its exception is answered like any other: HTTP 500 with its text.
    The body is asked for once, nothing else is called, and the file system
    is untouched. *)
Theorem unreadable_body_is_server_error D m p e w :
  model D = Some m -> processor D = Some p ->
  request_json D = Raises e ->
  generate_music D w
  = (Returns (error_response (exc_str e)),
     emit_all [EvRequestJson;
               EvLog ERROR (Msg ("Error during generation: " ++ exc_str e))] w).
Proof.
  intros Hm Hp Hreq. unfold generate_music. rewrite Hm, Hp.
  unfold try_except, try_block, read_input, bind at 1, bind at 1, call at 1.
  rewrite Hreq. unfold except_block, bind, log, call, ret, emit_all, emit. cbn.
  by rewrite <- app_assoc.
Qed.

(** X4. A body that is valid JSON but not an object (a list, a string, a
    number, [null]) has no [get]: the [AttributeError] of line 44 is answered
    with HTTP 500 and names the type. *)
Theorem non_object_body_is_server_error D m p (v : value) w :
  model D = Some m -> processor D = Some p ->
  request_json D = Returns v ->
  (forall d, v <> VDict d) ->
  generate_music D w
  = (Returns (error_response
                ("'" ++ type_name v ++ "' object has no attribute 'get'")),
     emit_all [EvRequestJson;
               EvLog ERROR
                 (Msg ("Error during generation: "
                         ++ "'" ++ type_name v ++ "' object has no attribute 'get'"))]
       w).
Proof.
  intros Hm Hp Hreq Hnot. unfold generate_music. rewrite Hm, Hp.
  unfold try_except, try_block, read_input, bind at 1, bind at 1, call at 1.
  rewrite Hreq. unfold bind at 1, lift at 1.
  destruct v; try (by destruct (Hnot _ eq_refl));
    unfold except_block, bind, log, call, ret, emit_all, emit; cbn;
    by rewrite <- app_assoc.
Qed.

(** X5. The default '' is for a missing key only: a description that is
    present is handed to the processor as it is, whatever its JSON type,
    [null] included. *)
Theorem present_description_not_defaulted D m p fields (v : value) n w :
  model D = Some m -> processor D = Some p ->
  request_json D = Returns (VDict fields) ->
  fields !! "description" = Some v ->
  int (default (VInt 10) (fields !! "duration")) = Returns n ->
  exists w1 evs,
    read_input D w = (Returns (v, n), w1) /\
    trace (snd (generate_music D w))
    = (trace w1
         ++ [EvLog INFO (Msg "Processing text input...");
             EvProcessor {| text := [v]; padding := true; return_tensors := "pt" |}]
         ++ evs)%list.
Proof.
  intros Hm Hp Hreq Hdesc Hint.
  pose proof (read_input_dict D fields w Hreq) as Hread.
  rewrite Hint, Hdesc in Hread. cbn [default from_option id] in Hread.
  destruct (run_calls_processor D m p w _ _ _ Hm Hp Hread) as [evs Hevs].
  eexists _, evs. split; [exact Hread | exact Hevs].
Qed.

(** X6. A fractional duration is cut towards zero by [int] before it is
    multiplied: the duration the handler goes on with has the sign of the
    float and the largest magnitude not above it, so every float strictly
    between -1 and 1 counts as 0 seconds. *)
Theorem float_duration_truncated_toward_zero
    D fields (s : bool) (mant : positive) (e : Z) w :
  request_json D = Returns (VDict fields) ->
  fields !! "duration" = Some (VFloat (S754_finite s mant e)) ->
  e < 0 ->
  exists n w1,
    read_input D w
      = (Returns (default (VStr "") (fields !! "description"), n), w1) /\
    (if s then n <= 0 else 0 <= n) /\
    Z.abs n * 2 ^ (- e) <= Z.pos mant < (Z.abs n + 1) * 2 ^ (- e) /\
    (Z.pos mant < 2 ^ (- e) -> n = 0).
Proof.
  intros Hreq Hdur He.
  pose proof (read_input_dict D fields w Hreq) as Hread.
  rewrite Hdur in Hread. cbn [default from_option id int] in Hread.
  eexists _, _. split; [exact Hread |].
  unfold trunc_float. destruct (Z.leb_spec 0 e) as [|_]; [lia |].
  assert (Hd : 0 < 2 ^ (- e)) by (apply Z.pow_pos_nonneg; lia).
  set (d := 2 ^ (- e)) in *.
  assert (Hq : 0 <= Z.pos mant / d) by (apply Z.div_pos; lia).
  pose proof (Z.mul_div_le (Z.pos mant) d Hd) as Hlo.
  pose proof (Z.mul_succ_div_gt (Z.pos mant) d Hd) as Hhi.
  assert (Habs : Z.abs (if s then - (Z.pos mant / d) else Z.pos mant / d)
                 = Z.pos mant / d) by (destruct s; lia).
  rewrite Habs. repeat split.
  - destruct s; lia.
  - lia.
  - lia.
  - intros Hsmall. rewrite (Z.div_small (Z.pos mant) d) by lia. by destruct s.
Qed.

(** X7. If the text processor raises, the answer is HTTP 500 with its text;
    the model is not called, the clock is not read, and the file system is
    untouched. *)
Theorem processor_failure_reported D m p fields n e w :
  model D = Some m -> processor D = Some p ->
  request_json D = Returns (VDict fields) ->
  int (default (VInt 10) (fields !! "duration")) = Returns n ->
  processor_call p (processor_kwargs (default (VStr "") (fields !! "description")))
    = Raises e ->
  generate_music D w
  = (Returns (error_response (exc_str e)),
     emit_all
       [EvRequestJson; EvRequestJson;
        EvLog INFO (MsgGenerating (default (VStr "") (fields !! "description")) n);
        EvLog INFO (Msg "Processing text input...");
        EvProcessor (processor_kwargs (default (VStr "") (fields !! "description")));
        EvLog ERROR (Msg ("Error during generation: " ++ exc_str e))] w).
Proof.
  intros Hm Hp Hreq Hint Hproc.
  pose proof (read_input_dict D fields w Hreq) as Hread.
  rewrite Hint in Hread.
  rewrite (generate_music_from_input D m p w _ _ _ Hm Hp Hread).
  unfold try_except, bind at 1, process_text, bind at 1, log, call at 1.
  unfold bind at 1, call at 1. rewrite Hproc.
  unfold except_block, bind, log, call, ret, emit_all, emit. cbn.
  by rewrite <- !app_assoc.
Qed.

(** ** The move to the GPU *)

Lemma process_text_run D p description (i : Inputs) w :
  processor_call p (processor_kwargs description) = Returns i ->
  process_text D p description w
  = if cuda_is_available D then
      (to_cuda D i,
       emit_all [EvLog INFO (Msg "Processing text input...");
                 EvProcessor (processor_kwargs description);
                 EvCudaIsAvailable; EvToCuda i] w)
    else
      (Returns i,
       emit_all [EvLog INFO (Msg "Processing text input...");
                 EvProcessor (processor_kwargs description);
                 EvCudaIsAvailable] w).
Proof.
  intros Hproc. unfold process_text, bind, log, call. rewrite Hproc.
  destruct (cuda_is_available D); unfold emit_all, emit, ret; cbn;
    by rewrite <- !app_assoc.
Qed.

(** X8. What the processor returns reaches [generate] as it is when there is
    no GPU, and no transfer is attempted; with a GPU it is the transferred
    copy that reaches [generate]; and a transfer that raises ends the request
    with HTTP 500 before the model is called. *)
Theorem inputs_moved_to_gpu_when_available
    D m p description duration w w1 (i : Inputs) :
  model D = Some m -> processor D = Some p ->
  read_input D w = (Returns (description, duration), w1) ->
  processor_call p (processor_kwargs description) = Returns i ->
  (cuda_is_available D = false ->
   exists evs,
     trace (snd (generate_music D w))
     = (trace w1
          ++ [EvLog INFO (Msg "Processing text input...");
              EvProcessor (processor_kwargs description);
              EvCudaIsAvailable;
              EvLog INFO (Msg "Generating audio (this may take a while)...");
              EvGenerate (generate_kwargs i duration)]
          ++ evs)%list) /\
  (forall i', cuda_is_available D = true -> to_cuda D i = Returns i' ->
   exists evs,
     trace (snd (generate_music D w))
     = (trace w1
          ++ [EvLog INFO (Msg "Processing text input...");
              EvProcessor (processor_kwargs description);
              EvCudaIsAvailable; EvToCuda i;
              EvLog INFO (Msg "Generating audio (this may take a while)...");
              EvGenerate (generate_kwargs i' duration)]
          ++ evs)%list) /\
  (forall e, cuda_is_available D = true -> to_cuda D i = Raises e ->
   generate_music D w
   = (Returns (error_response (exc_str e)),
      emit_all [EvLog INFO (Msg "Processing text input...");
                EvProcessor (processor_kwargs description);
                EvCudaIsAvailable; EvToCuda i;
                EvLog ERROR (Msg ("Error during generation: " ++ exc_str e))]
        w1)).
Proof.
  intros Hm Hp Hread Hproc.
  pose proof (process_text_run D p description i w1 Hproc) as Hrun.
  split; [| split].
  - intros Hcuda. rewrite Hcuda in Hrun.
    destruct (run_calls_generate D m p w _ _ _ _ _ Hm Hp Hread Hrun) as [evs Hevs].
    exists evs. rewrite Hevs. cbn. by rewrite <- !app_assoc.
  - intros i' Hcuda Hmove. rewrite Hcuda, Hmove in Hrun.
    destruct (run_calls_generate D m p w _ _ _ _ _ Hm Hp Hread Hrun) as [evs Hevs].
    exists evs. rewrite Hevs. cbn. by rewrite <- !app_assoc.
  - intros e Hcuda Hmove. rewrite Hcuda, Hmove in Hrun.
    rewrite (generate_music_from_input D m p w _ _ _ Hm Hp Hread).
    unfold try_except, bind at 1. rewrite Hrun.
    unfold except_block, bind, log, call, ret, emit_all, emit. cbn.
    by rewrite <- !app_assoc.
Qed.

(** ** Requests that fail after the model has answered *)

Lemma generate_music_from_audio D m p w description duration w1 inputs w2 audio :
  model D = Some m -> processor D = Some p ->
  read_input D w = (Returns (description, duration), w1) ->
  process_text D p description w1 = (Returns inputs, w2) ->
  generate m (generate_kwargs inputs duration) = Returns audio ->
  generate_music D w
  = try_except
      (bind (persist D m audio) (fun filename =>
       bind (log INFO (Msg "Generation completed successfully!")) (fun _ =>
       ret (success_response filename))))
      except_block
      (emit (EvGenerate (generate_kwargs inputs duration))
         (emit (EvLog INFO (Msg "Generating audio (this may take a while)...")) w2)).
Proof.
  intros Hm Hp H1 H2 Hgen.
  rewrite (generate_music_from_inputs D m p w _ _ _ _ _ Hm Hp H1 H2).
  unfold try_except, bind at 1. rewrite synthesize_run, Hgen. reflexivity.
Qed.

Lemma persist_unfold D m audio w :
  persist D m audio w
  = bind (makedirs D "static/generated") (fun _ =>
    bind (log INFO (Msg "Saving generated audio...")) (fun _ =>
    bind (call (EvCpu audio) (cpu D audio)) (fun on_cpu =>
    bind (call (EvSqueeze on_cpu) (squeeze0 D on_cpu)) (fun samples =>
    bind (save D ("static/generated/" ++ filename_of (now D)) samples
            (sampling_rate m)) (fun _ =>
    ret (filename_of (now D)))))))
      (emit EvNow w).
Proof.
  unfold persist, bind at 1, call at 1. cbv zeta.
  rewrite (proj2 (filepath_of (now D))). reflexivity.
Qed.

Lemma makedirs_output_dir D w :
  makedirs D "static/generated" w
  = mkdirs (mkdir_fault D) "static/generated" ["static"; "static/generated"]
      (emit (EvMakedirs "static/generated") w).
Proof. reflexivity. Qed.

Lemma makedirs_existing D w :
  "static" ∈ dirs w -> "static/generated" ∈ dirs w ->
  makedirs D "static/generated" w
  = (Returns tt, emit (EvMakedirs "static/generated") w).
Proof.
  intros Hs Hg. rewrite makedirs_output_dir. cbn [mkdirs emit dirs].
  rewrite !decide_True by done. reflexivity.
Qed.

Lemma stages_keep_fs D p description duration w w1 inputs w2 :
  read_input D w = (Returns (description, duration), w1) ->
  process_text D p description w1 = (Returns inputs, w2) ->
  dirs w2 = dirs w /\ files w2 = files w.
Proof.
  intros H1 H2.
  destruct (emits_read_input D w) as [evs1 E1]. rewrite H1 in E1. cbn in E1.
  destruct (emits_process_text D p description w1) as [evs2 E2].
  rewrite H2 in E2. cbn in E2. by subst w1 w2.
Qed.

Lemma run_until_makedirs D m p w description duration w1 inputs w2 audio :
  model D = Some m -> processor D = Some p ->
  read_input D w = (Returns (description, duration), w1) ->
  process_text D p description w1 = (Returns inputs, w2) ->
  generate m (generate_kwargs inputs duration) = Returns audio ->
  forall (e : exc) w4,
    makedirs D "static/generated"
      (emit EvNow
         (emit (EvGenerate (generate_kwargs inputs duration))
            (emit (EvLog INFO (Msg "Generating audio (this may take a while)..."))
               w2)))
    = (Raises e, w4) ->
    generate_music D w
    = (Returns (error_response (exc_str e)),
       emit (EvLog ERROR (Msg ("Error during generation: " ++ exc_str e))) w4).
Proof.
  intros Hm Hp H1 H2 Hgen e w4 Hmk.
  rewrite (generate_music_from_audio D m p w _ _ _ _ _ _ Hm Hp H1 H2 Hgen).
  unfold try_except, bind at 1. rewrite persist_unfold.
  unfold bind at 1. rewrite Hmk. reflexivity.
Qed.

(** X9. If a regular file sits where a directory of the output path should
    be, the request fails after the model has done its work: [makedirs]
    raises ([NotADirectoryError] when [static] is the file,
    [FileExistsError] when [static/generated] is), the answer is HTTP 500
    with that text, and nothing is written. *)
Theorem blocked_output_directory_is_server_error
    D m p w description duration w1 inputs w2 audio :
  model D = Some m -> processor D = Some p ->
  read_input D w = (Returns (description, duration), w1) ->
  process_text D p description w1 = (Returns inputs, w2) ->
  generate m (generate_kwargs inputs duration) = Returns audio ->
  ("static" ∉ dirs w -> is_Some (files w !! "static") ->
   exists w',
     generate_music D w
     = (Returns (error_response "[Errno 20] Not a directory: 'static/generated'"),
        w') /\
     files w' = files w /\ dirs w' = dirs w /\
     budgets (trace w') = (budgets (trace w2) ++ [duration * 50])%list) /\
  ("static" ∈ dirs w -> "static/generated" ∉ dirs w ->
   is_Some (files w !! "static/generated") ->
   exists w',
     generate_music D w
     = (Returns (error_response "[Errno 17] File exists: 'static/generated'"),
        w') /\
     files w' = files w /\ dirs w' = dirs w /\
     budgets (trace w') = (budgets (trace w2) ++ [duration * 50])%list).
Proof.
  intros Hm Hp H1 H2 Hgen.
  destruct (stages_keep_fs D p _ _ _ _ _ _ H1 H2) as [Hd2 Hf2].
  pose proof (run_until_makedirs D m p w _ _ _ _ _ _ Hm Hp H1 H2 Hgen) as Hrun.
  split.
  - intros Hout [f Hfile]. eexists. split.
    + apply (Hrun (Exc "NotADirectoryError"
                     "[Errno 20] Not a directory: 'static/generated'")).
      rewrite makedirs_output_dir. cbn [mkdirs emit dirs files].
      rewrite Hd2, Hf2. rewrite decide_False by done. rewrite Hfile. reflexivity.
    + cbn -[budgets]. rewrite !budgets_snoc. cbn -[budgets].
      rewrite !app_nil_r. done.
  - intros Hin Hout [f Hfile]. eexists. split.
    + apply (Hrun (Exc "FileExistsError"
                     "[Errno 17] File exists: 'static/generated'")).
      rewrite makedirs_output_dir. cbn [mkdirs emit dirs files].
      rewrite Hd2, Hf2. rewrite decide_True by done.
      rewrite decide_False by done. rewrite Hfile. reflexivity.
    + cbn -[budgets]. rewrite !budgets_snoc. cbn -[budgets].
      rewrite !app_nil_r. done.
Qed.

(** X10. With the output directory in place, a write that fails ends the
    request with HTTP 500 and the text of the failure; the only thing that
    may have changed on disk is the request's own file, left partial when
    the failure says so.  An error answer does not mean that nothing was
    written. *)
Theorem failed_save_is_server_error
    D m p w description duration w1 inputs w2 audio on_cpu samples
    (sf : save_failure) :
  model D = Some m -> processor D = Some p ->
  read_input D w = (Returns (description, duration), w1) ->
  process_text D p description w1 = (Returns inputs, w2) ->
  generate m (generate_kwargs inputs duration) = Returns audio ->
  "static" ∈ dirs w -> "static/generated" ∈ dirs w ->
  ("static/generated/" ++ filename_of (now D)) ∉ dirs w ->
  cpu D audio = Returns on_cpu ->
  squeeze0 D on_cpu = Returns samples ->
  save_fault D ("static/generated/" ++ filename_of (now D)) samples
    (sampling_rate m) = Some sf ->
  exists w',
    generate_music D w = (Returns (error_response (exc_str (save_exc sf))), w') /\
    dirs w' = dirs w /\
    files w'
    = (if leaves_partial sf
       then <["static/generated/" ++ filename_of (now D) := Partial]> (files w)
       else files w).
Proof.
  intros Hm Hp H1 H2 Hgen Hs Hg Hnd Hcpu Hsq Hfault.
  destruct (stages_keep_fs D p _ _ _ _ _ _ H1 H2) as [Hd2 Hf2].
  rewrite (generate_music_from_audio D m p w _ _ _ _ _ _ Hm Hp H1 H2 Hgen).
  unfold try_except, bind at 1. rewrite persist_unfold.
  unfold bind at 1. rewrite makedirs_existing by (cbn; by rewrite Hd2).
  unfold bind at 1, log at 1, call at 1.
  unfold bind at 1, call at 1. rewrite Hcpu.
  unfold bind at 1, call at 1. rewrite Hsq.
  unfold bind at 1, save, bind at 1, call at 1. cbn [emit dirs files].
  rewrite Hd2, Hf2, Hfault.
  rewrite decide_False by done.
  rewrite decide_True
    by (right; rewrite <- (proj1 (filepath_of (now D))),
          (proj2 (filepath_of (now D))); done).
  eexists. split; [reflexivity |]. cbn.
  destruct (leaves_partial sf); cbn; by rewrite ?Hd2, ?Hf2.
Qed.

(** ** What a request may change on disk *)

Lemma fs_within_refl path w : fs_within path w w.
Proof.
  repeat split; [done | apply union_subseteq_l].
Qed.

Lemma fs_within_trans path w1 w2 w3 :
  fs_within path w1 w2 -> fs_within path w2 w3 -> fs_within path w1 w3.
Proof.
  intros (Hf1 & Hlo1 & Hhi1) (Hf2 & Hlo2 & Hhi2). repeat split.
  - intros q Hq. by rewrite Hf2, Hf1.
  - by etrans.
  - intros x Hx. apply Hhi2 in Hx. apply elem_of_union in Hx as [Hx | Hx].
    + by apply Hhi1.
    + by apply elem_of_union_r.
Qed.

Lemma fs_within_emit_all path (evs : list (event Inputs Audio)) w :
  fs_within path w (emit_all evs w).
Proof. repeat split; [done | apply union_subseteq_l]. Qed.

Lemma confined_emits {A} path (c : M Inputs Audio A) :
  emits c -> confined path c.
Proof. intros Hc w. destruct (Hc w) as [evs ->]. apply fs_within_emit_all. Qed.

Lemma confined_bind {A B} path (c : M Inputs Audio A) (k : A -> M Inputs Audio B) :
  confined path c -> (forall a, confined path (k a)) -> confined path (bind c k).
Proof.
  intros Hc Hk w. unfold bind. pose proof (Hc w) as Hw.
  destruct (c w) as [[a|e] w1]; cbn in Hw; [| exact Hw].
  eapply fs_within_trans; [exact Hw | apply Hk].
Qed.

Lemma confined_try_except {A} path (c : M Inputs Audio A) h :
  confined path c -> (forall e, confined path (h e)) ->
  confined path (try_except c h).
Proof.
  intros Hc Hh w. unfold try_except. pose proof (Hc w) as Hw.
  destruct (c w) as [[a|e] w1]; cbn in Hw; [exact Hw |].
  eapply fs_within_trans; [exact Hw | apply Hh].
Qed.

Lemma mkdirs_dirs_upper fault path todo w :
  dirs (snd (mkdirs (Inputs:=Inputs) (Audio:=Audio) fault path todo w))
    ⊆ dirs w ∪ list_to_set todo.
Proof.
  revert w. induction todo as [|q rest IH]; intros w; cbn [mkdirs list_to_set].
  - cbn. apply union_subseteq_l.
  - destruct (decide (q ∈ dirs w)).
    + intros x Hx. apply IH in Hx. apply elem_of_union in Hx as [Hx | Hx].
      * by apply elem_of_union_l.
      * by apply elem_of_union_r, elem_of_union_r.
    + destruct (files w !! q); [cbn; apply union_subseteq_l |].
      destruct (fault q); [cbn; apply union_subseteq_l |].
      intros x Hx. apply IH in Hx. cbn in Hx.
      apply elem_of_union in Hx as [Hx | Hx].
      * apply elem_of_union in Hx as [Hx | Hx].
        -- by apply elem_of_union_r, elem_of_union_l.
        -- by apply elem_of_union_l.
      * by apply elem_of_union_r, elem_of_union_r.
Qed.

Lemma confined_makedirs D path :
  confined path (makedirs D "static/generated").
Proof.
  intros w. rewrite makedirs_output_dir.
  destruct (mkdirs_spec (mkdir_fault D) "static/generated"
              ["static"; "static/generated"]
              (emit (EvMakedirs "static/generated") w)) as (Hf & _ & Hlo & _).
  pose proof (mkdirs_dirs_upper (mkdir_fault D) "static/generated"
                ["static"; "static/generated"]
                (emit (EvMakedirs "static/generated") w)) as Hhi.
  set (res := mkdirs _ _ _ _) in *. clearbody res.
  cbn [emit files dirs list_to_set] in Hf, Hlo, Hhi. repeat split.
  - intros q _. by rewrite Hf.
  - exact Hlo.
  - intros x Hx. apply Hhi in Hx. apply elem_of_union in Hx as [Hx | Hx].
    + by apply elem_of_union_l.
    + apply elem_of_union_r. apply elem_of_union in Hx as [Hx | Hx].
      * by apply elem_of_union_l.
      * apply elem_of_union_r. apply elem_of_union in Hx as [Hx | Hx]; [done |].
        by apply elem_of_empty in Hx.
Qed.

Lemma confined_save D path samples rate :
  confined path (save D path samples rate).
Proof.
  intros w. unfold save, bind, call. cbn.
  assert (Hins : forall (x : file Audio) q, q <> path ->
            <[path := x]> (files w) !! q = files w !! q)
    by (intros x q Hq; by apply lookup_insert_ne).
  repeat case_decide;
    try destruct (save_fault D path samples rate) as [[e []]|];
    cbn; repeat split; try done;
    first [ apply union_subseteq_l | intros q Hq; by apply Hins ].
Qed.

Lemma confined_persist D m audio :
  confined ("static/generated/" ++ filename_of (now D)) (persist D m audio).
Proof.
  intros w. rewrite persist_unfold.
  eapply fs_within_trans; [apply (fs_within_emit_all _ [EvNow]) |].
  apply confined_bind; [apply confined_makedirs | intros _].
  apply confined_bind; [apply confined_emits, emits_call | intros _].
  apply confined_bind; [apply confined_emits, emits_call | intros on_cpu].
  apply confined_bind; [apply confined_emits, emits_call | intros samples].
  apply confined_bind; [apply confined_save | intros _].
  apply confined_emits, emits_ret.
Qed.

(** X11. Whatever the request and whatever fails, the handler leaves every
    file alone except [static/generated/<its own file name>], removes no
    directory, and creates no directory other than [static] and
    [static/generated]. *)
Theorem request_confined_to_its_file D w :
  (forall q, q <> "static/generated/" ++ filename_of (now D) ->
     files (snd (generate_music D w)) !! q = files w !! q) /\
  dirs w ⊆ dirs (snd (generate_music D w)) /\
  dirs (snd (generate_music D w)) ⊆ dirs w ∪ {["static"; "static/generated"]}.
Proof.
  change (fs_within ("static/generated/" ++ filename_of (now D)) w
            (snd (generate_music D w))).
  revert w. change (confined ("static/generated/" ++ filename_of (now D))
                      (generate_music D)).
  unfold generate_music.
  destruct (model D) as [m|]; [destruct (processor D) as [p|] |];
    try (apply confined_emits, emits_ret).
  apply confined_try_except;
    [| intros e; apply confined_emits, emits_except_block].
  unfold try_block.
  apply confined_bind; [apply confined_emits, emits_read_input | intros input].
  apply confined_bind; [apply confined_emits, emits_process_text | intros inputs].
  apply confined_bind; [apply confined_emits, emits_synthesize | intros audio].
  apply confined_bind; [apply confined_persist | intros filename].
  apply confined_bind; [apply confined_emits, emits_call | intros _].
  apply confined_emits, emits_ret.
Qed.

(** ** No retry *)

Section Counting.

Context {X : Type} (f : event Inputs Audio -> option X).

Lemma adds_ret {A} (a : A) : adds f 0 (ret a).
Proof. intros w. exists []. cbn. by rewrite app_nil_r. Qed.

Lemma adds_lift {A} (r : result A) : adds f 0 (lift r).
Proof. intros w. exists []. cbn. by rewrite app_nil_r. Qed.

Lemma adds_call_other {A} ev (r : result A) : f ev = None -> adds f 0 (call ev r).
Proof. intros Hev w. exists [ev]. cbn. by rewrite Hev. Qed.

Lemma adds_call {A} ev (r : result A) : adds f 1 (call ev r).
Proof. intros w. exists [ev]. cbn. destruct (f ev); cbn; split; (done || lia). Qed.

Lemma adds_bind {A B} n1 n2 (c : M Inputs Audio A) (k : A -> M Inputs Audio B) :
  adds f n1 c -> (forall a, adds f n2 (k a)) -> adds f (n1 + n2) (bind c k).
Proof.
  intros Hc Hk w. unfold bind. destruct (Hc w) as (evs & Hevs & Hn).
  destruct (c w) as [[a|e] w1]; cbn in Hevs.
  - destruct (Hk a w1) as (evs' & Hevs' & Hn'). exists (evs ++ evs')%list.
    split; [by rewrite Hevs', Hevs, app_assoc |].
    rewrite omap_app, length_app. lia.
  - exists evs. split; [done | lia].
Qed.

Lemma adds_try_except {A} n1 n2 (c : M Inputs Audio A) h :
  adds f n1 c -> (forall e, adds f n2 (h e)) -> adds f (n1 + n2) (try_except c h).
Proof.
  intros Hc Hh w. unfold try_except. destruct (Hc w) as (evs & Hevs & Hn).
  destruct (c w) as [[a|e] w1]; cbn in Hevs.
  - exists evs. split; [done | lia].
  - destruct (Hh e w1) as (evs' & Hevs' & Hn'). exists (evs ++ evs')%list.
    split; [by rewrite Hevs', Hevs, app_assoc |].
    rewrite omap_app, length_app. lia.
Qed.

Lemma adds_weaken {A} n n' (c : M Inputs Audio A) :
  (n <= n')%nat -> adds f n c -> adds f n' c.
Proof.
  intros Hle Hc w. destruct (Hc w) as (evs & Hevs & Hn).
  exists evs. split; [done | lia].
Qed.

Lemma adds_makedirs D path : f (EvMakedirs path) = None -> adds f 0 (makedirs D path).
Proof.
  intros Hev w. exists [EvMakedirs path]. unfold makedirs, bind, call.
  destruct (mkdirs_spec (mkdir_fault D) path (ancestors path)
              (emit (EvMakedirs path) w)) as (_ & -> & _).
  cbn. by rewrite Hev.
Qed.

Lemma save_trace D path samples rate w :
  trace (snd (save D path samples rate w))
  = (trace w ++ [EvSave path samples rate])%list.
Proof.
  unfold save, bind, call. cbn.
  repeat case_decide; try done;
    destruct (save_fault D path samples rate) as [[e []]|]; done.
Qed.

Lemma adds_save D path samples rate : adds f 1 (save D path samples rate).
Proof.
  intros w. exists [EvSave path samples rate]. split; [apply save_trace |].
  cbn. destruct (f _); cbn; lia.
Qed.

Lemma adds_save_other D path samples rate :
  f (EvSave path samples rate) = None -> adds f 0 (save D path samples rate).
Proof.
  intros Hev w. exists [EvSave path samples rate]. split; [apply save_trace |].
  cbn. by rewrite Hev.
Qed.

End Counting.

Lemma generate_music_one_generate D : adds budget_of 1 (generate_music D).
Proof.
  unfold generate_music.
  destruct (model D) as [m|]; [destruct (processor D) as [p|] |];
    try (apply (adds_weaken _ 0); [lia | apply adds_ret]).
  apply (adds_try_except _ 1 0).
  - unfold try_block.
    apply (adds_bind _ 0 1).
    { unfold read_input, log.
      repeat first [ apply (adds_bind _ 0 0); [| intros ?]
                   | apply adds_ret | apply adds_lift
                   | apply adds_call_other; reflexivity ]. }
    intros input. apply (adds_bind _ 0 1).
    { unfold process_text, log.
      repeat first [ apply (adds_bind _ 0 0); [| intros ?]
                   | apply adds_ret | apply adds_lift
                   | apply adds_call_other; reflexivity
                   | match goal with
                     | |- adds _ _ (if ?b then _ else _) => destruct b
                     end ]. }
    intros inputs. apply (adds_bind _ 1 0).
    { unfold synthesize, log. apply (adds_bind _ 0 1); [| intros _].
      - apply adds_call_other; reflexivity.
      - apply adds_call. }
    intros audio. apply (adds_bind _ 0 0).
    { intros w. rewrite persist_unfold.
      assert (H : adds budget_of 0
                (bind (makedirs D "static/generated") (fun _ =>
                 bind (log INFO (Msg "Saving generated audio...")) (fun _ =>
                 bind (call (EvCpu audio) (cpu D audio)) (fun on_cpu =>
                 bind (call (EvSqueeze on_cpu) (squeeze0 D on_cpu)) (fun samples =>
                 bind (save D ("static/generated/" ++ filename_of (now D)) samples
                         (sampling_rate m)) (fun _ =>
                 ret (filename_of (now D))))))))).
      { unfold log.
        repeat first [ apply adds_makedirs; reflexivity
                     | apply adds_save_other; reflexivity
                     | apply (adds_bind _ 0 0); [| intros ?]
                     | apply adds_ret
                     | apply adds_call_other; reflexivity ]. }
      destruct (H (emit EvNow w)) as (evs & Hevs & Hn).
      exists (EvNow :: evs). split; [| exact Hn].
      rewrite Hevs. cbn. by rewrite <- app_assoc. }
    intros filename. unfold log.
    apply (adds_bind _ 0 0); [apply adds_call_other; reflexivity | intros _].
    apply adds_ret.
  - intros e. unfold except_block, log.
    apply (adds_bind _ 0 0); [apply adds_call_other; reflexivity | intros _].
    apply adds_ret.
Qed.

Lemma generate_music_one_save D : adds saved_path 1 (generate_music D).
Proof.
  unfold generate_music.
  destruct (model D) as [m|]; [destruct (processor D) as [p|] |];
    try (apply (adds_weaken _ 0); [lia | apply adds_ret]).
  apply (adds_try_except _ 1 0).
  - unfold try_block.
    apply (adds_bind _ 0 1).
    { unfold read_input, log.
      repeat first [ apply (adds_bind _ 0 0); [| intros ?]
                   | apply adds_ret | apply adds_lift
                   | apply adds_call_other; reflexivity ]. }
    intros input. apply (adds_bind _ 0 1).
    { unfold process_text, log.
      repeat first [ apply (adds_bind _ 0 0); [| intros ?]
                   | apply adds_ret | apply adds_lift
                   | apply adds_call_other; reflexivity
                   | match goal with
                     | |- adds _ _ (if ?b then _ else _) => destruct b
                     end ]. }
    intros inputs. apply (adds_bind _ 0 1).
    { unfold synthesize, log. apply (adds_bind _ 0 0); [| intros _];
        apply adds_call_other; reflexivity. }
    intros audio. apply (adds_bind _ 1 0).
    { intros w. rewrite persist_unfold.
      assert (H : adds saved_path 1
                (bind (makedirs D "static/generated") (fun _ =>
                 bind (log INFO (Msg "Saving generated audio...")) (fun _ =>
                 bind (call (EvCpu audio) (cpu D audio)) (fun on_cpu =>
                 bind (call (EvSqueeze on_cpu) (squeeze0 D on_cpu)) (fun samples =>
                 bind (save D ("static/generated/" ++ filename_of (now D)) samples
                         (sampling_rate m)) (fun _ =>
                 ret (filename_of (now D))))))))).
      { unfold log.
        apply (adds_bind _ 0 1); [apply adds_makedirs; reflexivity | intros _].
        apply (adds_bind _ 0 1); [apply adds_call_other; reflexivity | intros _].
        apply (adds_bind _ 0 1); [apply adds_call_other; reflexivity | intros on_cpu].
        apply (adds_bind _ 0 1); [apply adds_call_other; reflexivity | intros samples].
        apply (adds_bind _ 1 0); [apply adds_save | intros _]. apply adds_ret. }
      destruct (H (emit EvNow w)) as (evs & Hevs & Hn).
      exists (EvNow :: evs). split; [| exact Hn].
      rewrite Hevs. cbn. by rewrite <- app_assoc. }
    intros filename. unfold log.
    apply (adds_bind _ 0 0); [apply adds_call_other; reflexivity | intros _].
    apply adds_ret.
  - intros e. unfold except_block, log.
    apply (adds_bind _ 0 0); [apply adds_call_other; reflexivity | intros _].
    apply adds_ret.
Qed.

(** X12. One request calls [model.generate] at most once and
    [torchaudio.save] at most once, whatever happens: nothing is retried. *)
Theorem at_most_one_generate_and_one_save D w :
  exists evs,
    trace (snd (generate_music D w)) = (trace w ++ evs)%list /\
    (length (budgets evs) <= 1)%nat /\
    (length (saves evs) <= 1)%nat.
Proof.
  destruct (generate_music_one_generate D w) as (evs & Hevs & Hn).
  destruct (generate_music_one_save D w) as (evs' & Hevs' & Hn').
  assert (evs' = evs) as ->.
  { rewrite Hevs in Hevs'. by apply app_inv_head in Hevs'. }
  exists evs. repeat split; done.
Qed.

(** ** Two requests in a row *)

(** X13. Two requests answered with 200 one after the other, in the same
    second: both answers carry the same [file_path]; the first request left
    its audio at that path, the second saved to the same path, and
    afterwards the files on disk are those from before the first request
    with that one path holding what the second request saved.  Nothing of
    the first request's audio remains. *)
Theorem same_second_request_overwrites
    (D1 D2 : Deps Inputs Audio) w r1 w1 r2 w2 :
  generate_music D1 w = (Returns r1, w1) -> status_code r1 = 200 ->
  generate_music D2 w1 = (Returns r2, w2) -> status_code r2 = 200 ->
  second_of (now D1) = second_of (now D2) ->
  exists m1 m2 first second evs,
    model D1 = Some m1 /\ model D2 = Some m2 /\
    body r1 = body r2 /\
    files w1 !! ("static/generated/" ++ filename_of (now D1))
      = Some (Wav first (sampling_rate m1)) /\
    trace w2
    = (trace w1 ++ evs
         ++ [EvSave ("static/generated/" ++ filename_of (now D1)) second
               (sampling_rate m2);
             EvLog INFO (Msg "Generation completed successfully!")])%list /\
    files w2
    = <["static/generated/" ++ filename_of (now D1)
        := Wav second (sampling_rate m2)]> (files w).
Proof.
  intros Hrun1 Hc1 Hrun2 Hc2 Hsec.
  apply generate_music_200_inv in Hrun1 as (m1 & p1 & Hm1 & _ & Hrun1); [| done].
  apply generate_music_200_inv in Hrun2 as (m2 & p2 & Hm2 & _ & Hrun2); [| done].
  apply try_block_success in Hrun1
    as (-> & s1 & evs1 & a1 & c1 & Hf1 & _ & _ & _).
  apply try_block_success in Hrun2
    as (-> & s2 & evs2 & a2 & c2 & Hf2 & _ & _ & Ht2).
  assert (Hname : filename_of (now D2) = filename_of (now D1))
    by (unfold filename_of; by rewrite (strftime_second _ _ Hsec)).
  rewrite Hname in Hf2, Ht2 |- *.
  exists m1, m2, s1, s2,
    (evs2 ++ [EvNow; EvMakedirs "static/generated";
              EvLog INFO (Msg "Saving generated audio...");
              EvCpu a2; EvSqueeze c2])%list.
  repeat split; try done.
  - by rewrite Hf1, lookup_insert_eq.
  - rewrite Ht2. by rewrite <- !app_assoc.
  - by rewrite Hf2, Hf1, insert_insert_eq.
Qed.

(** X14. Two requests answered with 200 one after the other, in different
    seconds: the two files are different paths, and afterwards both are on
    disk, the first with the audio the first request saved. *)
Theorem later_request_keeps_earlier_file
    (D1 D2 : Deps Inputs Audio) w r1 w1 r2 w2 :
  generate_music D1 w = (Returns r1, w1) -> status_code r1 = 200 ->
  generate_music D2 w1 = (Returns r2, w2) -> status_code r2 = 200 ->
  valid_datetime (now D1) -> valid_datetime (now D2) ->
  second_of (now D1) <> second_of (now D2) ->
  "static/generated/" ++ filename_of (now D1)
    <> "static/generated/" ++ filename_of (now D2) /\
  is_Some (files w2 !! ("static/generated/" ++ filename_of (now D2))) /\
  is_Some (files w1 !! ("static/generated/" ++ filename_of (now D1))) /\
  files w2 !! ("static/generated/" ++ filename_of (now D1))
    = files w1 !! ("static/generated/" ++ filename_of (now D1)).
Proof.
  intros Hrun1 Hc1 Hrun2 Hc2 Hv1 Hv2 Hsec.
  apply generate_music_200_inv in Hrun1 as (m1 & p1 & Hm1 & _ & Hrun1); [| done].
  apply generate_music_200_inv in Hrun2 as (m2 & p2 & Hm2 & _ & Hrun2); [| done].
  apply try_block_success in Hrun1 as (_ & s1 & ? & ? & ? & Hf1 & _).
  apply try_block_success in Hrun2 as (_ & s2 & ? & ? & ? & Hf2 & _).
  assert (Hne : "static/generated/" ++ filename_of (now D1)
                <> "static/generated/" ++ filename_of (now D2)).
  { intros Heq. apply string_app_inv_head in Heq.
    apply Hsec, strftime_inj; [done | done |]. by apply filename_of_inj. }
  split; [exact Hne |]. rewrite Hf2, Hf1.
  rewrite (lookup_insert_ne _ _ _ _ (not_eq_sym Hne)).
  rewrite !lookup_insert_eq. repeat split; done.
Qed.

(** ** The main block *)

(** X15. When the [makedirs] of the main block has returned, [static] and
    [static/generated] are directories and no file was touched; from then
    on, as long as no directory is removed, the [makedirs] of every request
    returns without creating anything, even where creating a directory would
    be refused. *)
Theorem main_setup_prepares_output_directory (D0 : Deps Inputs Audio) w0 u w :
  main_setup D0 w0 = (Returns u, w) ->
  files w = files w0 /\
  "static" ∈ dirs w /\ "static/generated" ∈ dirs w /\
  forall D w',
    dirs w ⊆ dirs w' ->
    makedirs D "static/generated" w'
    = (Returns tt, emit (EvMakedirs "static/generated") w').
Proof.
  unfold main_setup. intros Hrun.
  apply bind_returns_inv in Hrun as (u1 & w1 & Hmk & Hlog).
  apply call_returns_inv in Hlog as [_ ->].
  apply makedirs_returns_inv in Hmk as (Hf & _ & _ & Hall).
  assert (Hs : "static" ∈ dirs w1)
    by (apply Hall, list_elem_of_In; vm_compute; auto).
  assert (Hg : "static/generated" ∈ dirs w1)
    by (apply Hall, list_elem_of_In; vm_compute; auto).
  cbn [emit files dirs]. repeat split; try done.
  intros D w' Hsub. apply makedirs_existing; by apply Hsub.
Qed.

(** ** Where the saved audio comes from *)

(** X16. When the [try] block returns, the file holds what [generate]
    returned for the processed description and the budget [duration * 50],
    passed through [cpu()] and [squeeze(0)], at the model's sample rate; and
    the clock that names the file is read after [generate] has returned. *)
Theorem saved_audio_is_model_output D m p w r w' :
  try_block D m p w = (Returns r, w') ->
  exists description duration w1 inputs w2 audio on_cpu samples,
    read_input D w = (Returns (description, duration), w1) /\
    process_text D p description w1 = (Returns inputs, w2) /\
    generate m (generate_kwargs inputs duration) = Returns audio /\
    cpu D audio = Returns on_cpu /\
    squeeze0 D on_cpu = Returns samples /\
    files w' !! ("static/generated/" ++ filename_of (now D))
      = Some (Wav samples (sampling_rate m)) /\
    trace w'
    = (trace w2
         ++ [EvLog INFO (Msg "Generating audio (this may take a while)...");
             EvGenerate (generate_kwargs inputs duration);
             EvNow; EvMakedirs "static/generated";
             EvLog INFO (Msg "Saving generated audio...");
             EvCpu audio; EvSqueeze on_cpu;
             EvSave ("static/generated/" ++ filename_of (now D)) samples
               (sampling_rate m);
             EvLog INFO (Msg "Generation completed successfully!")])%list.
Proof.
  intros H.
  apply try_block_returns_inv in H
    as (description & duration & w1 & inputs & w2 & audio & w3 & filename & w4
        & H1 & H2 & H3 & H4 & -> & ->).
  apply persist_returns_inv in H4
    as (-> & on_cpu & samples & Hcpu & Hsq & Hf & _ & _ & Ht).
  rewrite synthesize_run in H3. injection H3 as Hgen <-.
  exists description, duration, w1, inputs, w2, audio, on_cpu, samples.
  repeat split; try done.
  - cbn. by rewrite Hf, lookup_insert_eq.
  - cbn. rewrite Ht. cbn. by rewrite <- !app_assoc.
Qed.

(** ** Where a 500 comes from *)

(** X18. Once the model is loaded, an answer with code 500 always stems
    from an exception raised inside the [try] block: the answer carries
    [str(e)], and the last thing the handler did was to log that same text
    at level ERROR.  (The answer of an unloaded deployment is not logged.) *)
Theorem server_error_is_a_logged_exception D m p w r w' :
  model D = Some m -> processor D = Some p ->
  generate_music D w = (Returns r, w') ->
  status_code r = 500 ->
  exists e w1,
    try_block D m p w = (Raises e, w1) /\
    body r = <["status" := VStr "error"]> (<["message" := VStr (exc_str e)]> ∅) /\
    w' = emit (EvLog ERROR (Msg ("Error during generation: " ++ exc_str e))) w1.
Proof.
  intros Hm Hp Hrun Hcode. unfold generate_music in Hrun.
  rewrite Hm, Hp in Hrun. unfold try_except in Hrun.
  destruct (try_block D m p w) as [[r1|e] w1] eqn:Htry.
  - injection Hrun as -> ->.
    apply try_block_returns_inv in Htry
      as (? & ? & ? & ? & ? & ? & ? & filename & ? & _ & _ & _ & _ & _ & ->).
    discriminate Hcode.
  - exists e, w1. cbn in Hrun. injection Hrun as <- <-. repeat split.
Qed.

End Extras.

(** ** The output path *)

Lemma all_sep_snoc (a : string) :
  a <> "" -> ends_with_sep a = false -> all_sep (a ++ "/") = false.
Proof.
  induction a as [|c a IH]; [done |]. intros _ Hend.
  change (String c a ++ "/") with (String c (a ++ "/")). cbn [all_sep].
  destruct a as [|c' a'].
  - cbn in Hend. by rewrite Hend.
  - rewrite IH; [by rewrite andb_false_r | done | exact Hend].
Qed.

Lemma rstrip_sep_snoc (a : string) :
  a <> "" -> ends_with_sep a = false -> rstrip_sep (a ++ "/") = a.
Proof.
  induction a as [|c a IH]; [done |]. intros _ Hend.
  change (String c a ++ "/") with (String c (a ++ "/")). cbn [rstrip_sep].
  change (String c (a ++ "/")) with (String c a ++ "/").
  rewrite all_sep_snoc by done.
  destruct a as [|c' a'].
  - reflexivity.
  - f_equal. apply IH; [done | exact Hend].
Qed.

(** X17. For a directory name that is not empty and does not end in '/',
    and a file name without '/', [os.path.join] puts one '/' between them
    and [os.path.dirname] of the result is the directory again: the
    directory line 74 creates is the one the file of line 71 lies in. *)
Theorem dirname_of_joined_path (d f : string) :
  d <> "" -> ends_with_sep d = false -> contains_char "/" f = false ->
  path_join d [f] = d ++ "/" ++ f /\
  dirname (path_join d [f]) = d.
Proof.
  intros Hd Hend Hf.
  assert (Hjoin : path_join d [f] = d ++ "/" ++ f).
  { unfold path_join. cbn [fold_left]. unfold join2.
    assert (starts_with_sep f = false) as ->.
    { destruct f as [|c f']; [done |]. cbn in Hf |- *.
      by apply orb_false_iff in Hf as [-> _]. }
    rewrite Hend. destruct d; [done | reflexivity]. }
  split; [exact Hjoin |]. rewrite Hjoin. unfold dirname.
  change (d ++ "/" ++ f) with (d ++ String "/" f).
  rewrite dirname_raw_app by done.
  rewrite all_sep_snoc by done.
  assert (String.eqb (d ++ "/") "" = false) as ->.
  { destruct d; [done | reflexivity]. }
  cbn [negb andb]. by apply rstrip_sep_snoc.
Qed.

(** * The further properties on the sample deployment *)

Lemma failed_startup_disables_generate_witness :
  (processor (unloaded (json_body a_request)),
   model (unloaded (json_body a_request)))
    = startup (Raises out_of_memory) (Returns a_model) false Returns /\
  ((exists e, Raises (A:=processor_t (list value)) out_of_memory = Raises e) \/
   (exists e, Returns a_model = Raises e) \/
   (false = true /\
    exists m e, Returns a_model = Returns m /\ Returns m = Raises e)) /\
  (processor (unloaded (json_body a_request)) = None /\
   model (unloaded (json_body a_request)) = None /\
   generate_music (unloaded (json_body a_request)) empty_world
     = (Returns (error_response "Model not initialized properly"), empty_world)).
Proof.
  assert (H : (exists e, Raises (A:=processor_t (list value)) out_of_memory
                         = Raises e) \/
              (exists e, Returns a_model = Raises e) \/
              (false = true /\
               exists m e, Returns a_model = Returns m /\ Returns m = Raises e))
    by (left; exists out_of_memory; reflexivity).
  split; [reflexivity |]. split; [exact H |].
  exact (failed_startup_disables_generate
           (Raises out_of_memory) (Returns a_model) false Returns
           (unloaded (json_body a_request)) empty_world eq_refl H).
Defined.

Lemma successful_startup_reads_request_witness :
  (processor (loaded (json_body a_request)), model (loaded (json_body a_request)))
    = startup (Returns a_processor) (Returns a_model) false Returns /\
  Returns a_processor = Returns a_processor /\
  Returns a_model = Returns a_model /\
  a_model = a_model /\
  (processor (loaded (json_body a_request)) = Some a_processor /\
   model (loaded (json_body a_request)) = Some a_model /\
   exists evs,
     trace (snd (generate_music (loaded (json_body a_request)) empty_world))
     = (trace empty_world ++ EvRequestJson :: evs)%list).
Proof.
  do 4 (split; [reflexivity |]).
  exact (successful_startup_reads_request
           (Returns a_processor) (Returns a_model) false Returns
           a_processor a_model a_model
           (loaded (json_body a_request)) empty_world
           eq_refl eq_refl eq_refl eq_refl).
Defined.

Lemma unreadable_body_is_server_error_witness :
  model (loaded (Raises unsupported_media)) = Some a_model /\
  processor (loaded (Raises unsupported_media)) = Some a_processor /\
  request_json (loaded (Raises unsupported_media)) = Raises unsupported_media /\
  generate_music (loaded (Raises unsupported_media)) empty_world
  = (Returns (error_response (exc_str unsupported_media)),
     emit_all [EvRequestJson;
               EvLog ERROR
                 (Msg ("Error during generation: " ++ exc_str unsupported_media))]
       empty_world).
Proof.
  repeat (split; [reflexivity |]).
  exact (unreadable_body_is_server_error
           (loaded (Raises unsupported_media)) a_model a_processor
           unsupported_media empty_world eq_refl eq_refl eq_refl).
Defined.

Lemma non_object_body_is_server_error_witness :
  model (loaded (Returns (VList [VInt 1]))) = Some a_model /\
  processor (loaded (Returns (VList [VInt 1]))) = Some a_processor /\
  request_json (loaded (Returns (VList [VInt 1]))) = Returns (VList [VInt 1]) /\
  (forall d, VList [VInt 1] <> VDict d) /\
  generate_music (loaded (Returns (VList [VInt 1]))) empty_world
  = (Returns (error_response
                ("'" ++ type_name (VList [VInt 1])
                     ++ "' object has no attribute 'get'")),
     emit_all [EvRequestJson;
               EvLog ERROR
                 (Msg ("Error during generation: "
                         ++ "'" ++ type_name (VList [VInt 1])
                         ++ "' object has no attribute 'get'"))]
       empty_world).
Proof.
  assert (H : forall d, VList [VInt 1] <> VDict d) by (intros d; discriminate).
  repeat (split; [first [reflexivity | exact H] |]).
  exact (non_object_body_is_server_error
           (loaded (Returns (VList [VInt 1]))) a_model a_processor
           (VList [VInt 1]) empty_world eq_refl eq_refl eq_refl H).
Defined.

Lemma present_description_not_defaulted_witness :
  model (loaded (json_body a_null_description)) = Some a_model /\
  processor (loaded (json_body a_null_description)) = Some a_processor /\
  request_json (loaded (json_body a_null_description))
    = Returns (VDict (json_fields a_null_description)) /\
  json_fields a_null_description !! "description" = Some VNone /\
  int (default (VInt 10) (json_fields a_null_description !! "duration"))
    = Returns 5 /\
  exists w1 evs,
    read_input (loaded (json_body a_null_description)) empty_world
      = (Returns (VNone, 5), w1) /\
    trace (snd (generate_music (loaded (json_body a_null_description)) empty_world))
    = (trace w1
         ++ [EvLog INFO (Msg "Processing text input...");
             EvProcessor {| text := [VNone]; padding := true;
                            return_tensors := "pt" |}]
         ++ evs)%list.
Proof.
  repeat (split; [reflexivity |]).
  exact (present_description_not_defaulted
           (loaded (json_body a_null_description)) a_model a_processor
           (json_fields a_null_description) VNone 5 empty_world
           eq_refl eq_refl eq_refl eq_refl eq_refl).
Defined.

Lemma float_duration_truncated_toward_zero_witness :
  request_json (loaded (json_body a_fractional_duration))
    = Returns (VDict (json_fields a_fractional_duration)) /\
  json_fields a_fractional_duration !! "duration"
    = Some (VFloat (S754_finite false 5 (-1))) /\
  -1 < 0 /\
  exists n w1,
    read_input (loaded (json_body a_fractional_duration)) empty_world
      = (Returns (default (VStr "")
                    (json_fields a_fractional_duration !! "description"), n),
         w1) /\
    (if false then n <= 0 else 0 <= n) /\
    Z.abs n * 2 ^ (- -1) <= Z.pos 5 < (Z.abs n + 1) * 2 ^ (- -1) /\
    (Z.pos 5 < 2 ^ (- -1) -> n = 0).
Proof.
  split; [reflexivity |]. split; [reflexivity |]. split; [lia |].
  exact (float_duration_truncated_toward_zero
           (loaded (json_body a_fractional_duration))
           (json_fields a_fractional_duration) false 5 (-1) empty_world
           eq_refl eq_refl eq_refl).
Defined.

Lemma processor_failure_reported_witness :
  model (mute (json_body a_request)) = Some a_model /\
  processor (mute (json_body a_request)) = Some (failing_processor out_of_memory) /\
  request_json (mute (json_body a_request))
    = Returns (VDict (json_fields a_request)) /\
  int (default (VInt 10) (json_fields a_request !! "duration")) = Returns 5 /\
  processor_call (failing_processor out_of_memory)
      (processor_kwargs (default (VStr "") (json_fields a_request !! "description")))
    = Raises out_of_memory /\
  generate_music (mute (json_body a_request)) empty_world
  = (Returns (error_response (exc_str out_of_memory)),
     emit_all
       [EvRequestJson; EvRequestJson;
        EvLog INFO
          (MsgGenerating
             (default (VStr "") (json_fields a_request !! "description")) 5);
        EvLog INFO (Msg "Processing text input...");
        EvProcessor
          (processor_kwargs
             (default (VStr "") (json_fields a_request !! "description")));
        EvLog ERROR (Msg ("Error during generation: " ++ exc_str out_of_memory))]
       empty_world).
Proof.
  repeat (split; [reflexivity |]).
  exact (processor_failure_reported
           (mute (json_body a_request)) a_model (failing_processor out_of_memory)
           (json_fields a_request) 5 out_of_memory empty_world
           eq_refl eq_refl eq_refl eq_refl eq_refl).
Defined.

Lemma gpu_read_input :
  read_input (gpu a_time (json_body a_request)) empty_world
  = (Returns (VStr "calm piano", 5),
     snd (read_input (gpu a_time (json_body a_request)) empty_world)).
Proof. vm_compute. reflexivity. Qed.

Lemma inputs_moved_to_gpu_when_available_witness :
  model (gpu a_time (json_body a_request)) = Some a_model /\
  processor (gpu a_time (json_body a_request)) = Some a_processor /\
  read_input (gpu a_time (json_body a_request)) empty_world
  = (Returns (VStr "calm piano", 5),
     snd (read_input (gpu a_time (json_body a_request)) empty_world)) /\
  processor_call a_processor (processor_kwargs (VStr "calm piano"))
    = Returns [VStr "calm piano"] /\
  ((cuda_is_available (gpu a_time (json_body a_request)) = false ->
    exists evs,
      trace (snd (generate_music (gpu a_time (json_body a_request)) empty_world))
      = (trace (snd (read_input (gpu a_time (json_body a_request)) empty_world))
           ++ [EvLog INFO (Msg "Processing text input...");
               EvProcessor (processor_kwargs (VStr "calm piano"));
               EvCudaIsAvailable;
               EvLog INFO (Msg "Generating audio (this may take a while)...");
               EvGenerate (generate_kwargs [VStr "calm piano"] 5)]
           ++ evs)%list) /\
   (forall i', cuda_is_available (gpu a_time (json_body a_request)) = true ->
    to_cuda (gpu a_time (json_body a_request)) [VStr "calm piano"] = Returns i' ->
    exists evs,
      trace (snd (generate_music (gpu a_time (json_body a_request)) empty_world))
      = (trace (snd (read_input (gpu a_time (json_body a_request)) empty_world))
           ++ [EvLog INFO (Msg "Processing text input...");
               EvProcessor (processor_kwargs (VStr "calm piano"));
               EvCudaIsAvailable; EvToCuda [VStr "calm piano"];
               EvLog INFO (Msg "Generating audio (this may take a while)...");
               EvGenerate (generate_kwargs i' 5)]
           ++ evs)%list) /\
   (forall e, cuda_is_available (gpu a_time (json_body a_request)) = true ->
    to_cuda (gpu a_time (json_body a_request)) [VStr "calm piano"] = Raises e ->
    generate_music (gpu a_time (json_body a_request)) empty_world
    = (Returns (error_response (exc_str e)),
       emit_all [EvLog INFO (Msg "Processing text input...");
                 EvProcessor (processor_kwargs (VStr "calm piano"));
                 EvCudaIsAvailable; EvToCuda [VStr "calm piano"];
                 EvLog ERROR (Msg ("Error during generation: " ++ exc_str e))]
         (snd (read_input (gpu a_time (json_body a_request)) empty_world))))).
Proof.
  split; [reflexivity |]. split; [reflexivity |].
  split; [exact gpu_read_input |]. split; [reflexivity |].
  exact (inputs_moved_to_gpu_when_available
           (gpu a_time (json_body a_request)) a_model a_processor
           (VStr "calm piano") 5 empty_world _ [VStr "calm piano"]
           eq_refl eq_refl gpu_read_input eq_refl).
Defined.

Lemma blocked_read_input :
  read_input (loaded (json_body a_request)) blocked_world
  = (Returns (VStr "calm piano", 5),
     snd (read_input (loaded (json_body a_request)) blocked_world)).
Proof. vm_compute. reflexivity. Qed.

Lemma blocked_process_text :
  process_text (loaded (json_body a_request)) a_processor (VStr "calm piano")
    (snd (read_input (loaded (json_body a_request)) blocked_world))
  = (Returns [VStr "calm piano"],
     snd (process_text (loaded (json_body a_request)) a_processor
            (VStr "calm piano")
            (snd (read_input (loaded (json_body a_request)) blocked_world)))).
Proof. vm_compute. reflexivity. Qed.

Lemma blocked_output_directory_is_server_error_witness :
  model (loaded (json_body a_request)) = Some a_model /\
  processor (loaded (json_body a_request)) = Some a_processor /\
  read_input (loaded (json_body a_request)) blocked_world
  = (Returns (VStr "calm piano", 5),
     snd (read_input (loaded (json_body a_request)) blocked_world)) /\
  process_text (loaded (json_body a_request)) a_processor (VStr "calm piano")
    (snd (read_input (loaded (json_body a_request)) blocked_world))
  = (Returns [VStr "calm piano"],
     snd (process_text (loaded (json_body a_request)) a_processor
            (VStr "calm piano")
            (snd (read_input (loaded (json_body a_request)) blocked_world)))) /\
  generate a_model (generate_kwargs [VStr "calm piano"] 5) = Returns 250 /\
  (("static" ∉ dirs blocked_world -> is_Some (files blocked_world !! "static") ->
    exists w',
      generate_music (loaded (json_body a_request)) blocked_world
      = (Returns (error_response "[Errno 20] Not a directory: 'static/generated'"),
         w') /\
      files w' = files blocked_world /\ dirs w' = dirs blocked_world /\
      budgets (trace w')
      = (budgets
           (trace (snd (process_text (loaded (json_body a_request)) a_processor
                          (VStr "calm piano")
                          (snd (read_input (loaded (json_body a_request))
                                  blocked_world)))))
           ++ [5 * 50])%list) /\
   ("static" ∈ dirs blocked_world -> "static/generated" ∉ dirs blocked_world ->
    is_Some (files blocked_world !! "static/generated") ->
    exists w',
      generate_music (loaded (json_body a_request)) blocked_world
      = (Returns (error_response "[Errno 17] File exists: 'static/generated'"),
         w') /\
      files w' = files blocked_world /\ dirs w' = dirs blocked_world /\
      budgets (trace w')
      = (budgets
           (trace (snd (process_text (loaded (json_body a_request)) a_processor
                          (VStr "calm piano")
                          (snd (read_input (loaded (json_body a_request))
                                  blocked_world)))))
           ++ [5 * 50])%list)).
Proof.
  split; [reflexivity |]. split; [reflexivity |].
  split; [exact blocked_read_input |]. split; [exact blocked_process_text |].
  split; [reflexivity |].
  exact (blocked_output_directory_is_server_error
           (loaded (json_body a_request)) a_model a_processor blocked_world
           (VStr "calm piano") 5 _ [VStr "calm piano"] _ 250
           eq_refl eq_refl blocked_read_input blocked_process_text eq_refl).
Defined.

Lemma full_disk_read_input :
  read_input (full_disk (json_body a_request)) prepared_world
  = (Returns (VStr "calm piano", 5),
     snd (read_input (full_disk (json_body a_request)) prepared_world)).
Proof. vm_compute. reflexivity. Qed.

Lemma full_disk_process_text :
  process_text (full_disk (json_body a_request)) a_processor (VStr "calm piano")
    (snd (read_input (full_disk (json_body a_request)) prepared_world))
  = (Returns [VStr "calm piano"],
     snd (process_text (full_disk (json_body a_request)) a_processor
            (VStr "calm piano")
            (snd (read_input (full_disk (json_body a_request)) prepared_world)))).
Proof. vm_compute. reflexivity. Qed.

Lemma prepared_world_dirs :
  "static" ∈ dirs prepared_world /\
  "static/generated" ∈ dirs prepared_world /\
  ("static/generated/" ++ filename_of a_time) ∉ dirs prepared_world.
Proof.
  unfold prepared_world. cbn [dirs]. split; [| split].
  - apply elem_of_union_l. by apply elem_of_singleton.
  - apply elem_of_union_r. by apply elem_of_singleton.
  - intros H. apply elem_of_union in H as [H | H];
      apply elem_of_singleton in H; vm_compute in H; discriminate H.
Qed.

Lemma failed_save_is_server_error_witness :
  model (full_disk (json_body a_request)) = Some a_model /\
  processor (full_disk (json_body a_request)) = Some a_processor /\
  read_input (full_disk (json_body a_request)) prepared_world
  = (Returns (VStr "calm piano", 5),
     snd (read_input (full_disk (json_body a_request)) prepared_world)) /\
  process_text (full_disk (json_body a_request)) a_processor (VStr "calm piano")
    (snd (read_input (full_disk (json_body a_request)) prepared_world))
  = (Returns [VStr "calm piano"],
     snd (process_text (full_disk (json_body a_request)) a_processor
            (VStr "calm piano")
            (snd (read_input (full_disk (json_body a_request)) prepared_world)))) /\
  generate a_model (generate_kwargs [VStr "calm piano"] 5) = Returns 250 /\
  "static" ∈ dirs prepared_world /\
  "static/generated" ∈ dirs prepared_world /\
  (("static/generated/" ++ filename_of (now (full_disk (json_body a_request))))
     ∉ dirs prepared_world) /\
  cpu (full_disk (json_body a_request)) 250 = Returns 250 /\
  squeeze0 (full_disk (json_body a_request)) 250 = Returns 250 /\
  save_fault (full_disk (json_body a_request))
    ("static/generated/" ++ filename_of (now (full_disk (json_body a_request))))
    250 (sampling_rate a_model)
    = Some {| save_exc := disk_full; leaves_partial := true |} /\
  exists w',
    generate_music (full_disk (json_body a_request)) prepared_world
    = (Returns (error_response
                  (exc_str (save_exc {| save_exc := disk_full;
                                        leaves_partial := true |}))), w') /\
    dirs w' = dirs prepared_world /\
    files w'
    = (if leaves_partial {| save_exc := disk_full; leaves_partial := true |}
       then <["static/generated/"
                ++ filename_of (now (full_disk (json_body a_request)))
              := Partial]> (files prepared_world)
       else files prepared_world).
Proof.
  destruct prepared_world_dirs as (Hs & Hg & Hn).
  split; [reflexivity |]. split; [reflexivity |].
  split; [exact full_disk_read_input |]. split; [exact full_disk_process_text |].
  split; [reflexivity |]. split; [exact Hs |]. split; [exact Hg |].
  split; [exact Hn |]. split; [reflexivity |]. split; [reflexivity |].
  split; [reflexivity |].
  exact (failed_save_is_server_error
           (full_disk (json_body a_request)) a_model a_processor prepared_world
           (VStr "calm piano") 5 _ [VStr "calm piano"] _ 250 250 250
           {| save_exc := disk_full; leaves_partial := true |}
           eq_refl eq_refl full_disk_read_input full_disk_process_text eq_refl
           Hs Hg Hn eq_refl eq_refl eq_refl).
Defined.

Lemma loaded_second_run :
  generate_music (loaded (json_body an_empty_request))
    (snd (generate_music (loaded (json_body a_request)) empty_world))
  = (Returns (success_response "generated_music_20240517_090307.wav"),
     snd (generate_music (loaded (json_body an_empty_request))
            (snd (generate_music (loaded (json_body a_request)) empty_world)))).
Proof. vm_compute. reflexivity. Qed.

Lemma loaded_later_second_run :
  generate_music (loaded_later (json_body an_empty_request))
    (snd (generate_music (loaded (json_body a_request)) empty_world))
  = (Returns (success_response "generated_music_20240517_090308.wav"),
     snd (generate_music (loaded_later (json_body an_empty_request))
            (snd (generate_music (loaded (json_body a_request)) empty_world)))).
Proof. vm_compute. reflexivity. Qed.

Lemma same_second_request_overwrites_witness :
  generate_music (loaded (json_body a_request)) empty_world
  = (Returns (success_response "generated_music_20240517_090307.wav"),
     snd (generate_music (loaded (json_body a_request)) empty_world)) /\
  status_code (success_response "generated_music_20240517_090307.wav") = 200 /\
  generate_music (loaded (json_body an_empty_request))
    (snd (generate_music (loaded (json_body a_request)) empty_world))
  = (Returns (success_response "generated_music_20240517_090307.wav"),
     snd (generate_music (loaded (json_body an_empty_request))
            (snd (generate_music (loaded (json_body a_request)) empty_world)))) /\
  status_code (success_response "generated_music_20240517_090307.wav") = 200 /\
  second_of (now (loaded (json_body a_request)))
    = second_of (now (loaded (json_body an_empty_request))) /\
  exists m1 m2 first second evs,
    model (loaded (json_body a_request)) = Some m1 /\
    model (loaded (json_body an_empty_request)) = Some m2 /\
    body (success_response "generated_music_20240517_090307.wav")
      = body (success_response "generated_music_20240517_090307.wav") /\
    files (snd (generate_music (loaded (json_body a_request)) empty_world))
      !! ("static/generated/" ++ filename_of (now (loaded (json_body a_request))))
      = Some (Wav first (sampling_rate m1)) /\
    trace (snd (generate_music (loaded (json_body an_empty_request))
                  (snd (generate_music (loaded (json_body a_request)) empty_world))))
    = (trace (snd (generate_music (loaded (json_body a_request)) empty_world))
         ++ evs
         ++ [EvSave ("static/generated/"
                       ++ filename_of (now (loaded (json_body a_request))))
               second (sampling_rate m2);
             EvLog INFO (Msg "Generation completed successfully!")])%list /\
    files (snd (generate_music (loaded (json_body an_empty_request))
                  (snd (generate_music (loaded (json_body a_request)) empty_world))))
    = <["static/generated/" ++ filename_of (now (loaded (json_body a_request)))
        := Wav second (sampling_rate m2)]> (files empty_world).
Proof.
  split; [exact loaded_run |]. split; [reflexivity |].
  split; [exact loaded_second_run |]. split; [reflexivity |].
  split; [reflexivity |].
  exact (same_second_request_overwrites
           (loaded (json_body a_request)) (loaded (json_body an_empty_request))
           empty_world _ _ _ _
           loaded_run eq_refl loaded_second_run eq_refl eq_refl).
Defined.

Lemma seconds_differ : second_of a_time <> second_of a_later_time.
Proof. unfold second_of, a_time, a_later_time. cbn. intros [= H]. Qed.

Lemma later_request_keeps_earlier_file_witness :
  generate_music (loaded (json_body a_request)) empty_world
  = (Returns (success_response "generated_music_20240517_090307.wav"),
     snd (generate_music (loaded (json_body a_request)) empty_world)) /\
  status_code (success_response "generated_music_20240517_090307.wav") = 200 /\
  generate_music (loaded_later (json_body an_empty_request))
    (snd (generate_music (loaded (json_body a_request)) empty_world))
  = (Returns (success_response "generated_music_20240517_090308.wav"),
     snd (generate_music (loaded_later (json_body an_empty_request))
            (snd (generate_music (loaded (json_body a_request)) empty_world)))) /\
  status_code (success_response "generated_music_20240517_090308.wav") = 200 /\
  valid_datetime (now (loaded (json_body a_request))) /\
  valid_datetime (now (loaded_later (json_body an_empty_request))) /\
  second_of (now (loaded (json_body a_request)))
    <> second_of (now (loaded_later (json_body an_empty_request))) /\
  ("static/generated/" ++ filename_of (now (loaded (json_body a_request)))
     <> "static/generated/"
          ++ filename_of (now (loaded_later (json_body an_empty_request))) /\
   is_Some
     (files (snd (generate_music (loaded_later (json_body an_empty_request))
                    (snd (generate_music (loaded (json_body a_request))
                            empty_world))))
        !! ("static/generated/"
              ++ filename_of (now (loaded_later (json_body an_empty_request))))) /\
   is_Some
     (files (snd (generate_music (loaded (json_body a_request)) empty_world))
        !! ("static/generated/"
              ++ filename_of (now (loaded (json_body a_request))))) /\
   files (snd (generate_music (loaded_later (json_body an_empty_request))
                 (snd (generate_music (loaded (json_body a_request)) empty_world))))
     !! ("static/generated/" ++ filename_of (now (loaded (json_body a_request))))
   = files (snd (generate_music (loaded (json_body a_request)) empty_world))
       !! ("static/generated/" ++ filename_of (now (loaded (json_body a_request))))).
Proof.
  split; [exact loaded_run |]. split; [reflexivity |].
  split; [exact loaded_later_second_run |]. split; [reflexivity |].
  split; [exact a_time_valid |]. split; [exact a_later_time_valid |].
  split; [exact seconds_differ |].
  exact (later_request_keeps_earlier_file
           (loaded (json_body a_request)) (loaded_later (json_body an_empty_request))
           empty_world _ _ _ _
           loaded_run eq_refl loaded_later_second_run eq_refl
           a_time_valid a_later_time_valid seconds_differ).
Defined.

Lemma loaded_main_setup :
  main_setup (loaded (json_body a_request)) empty_world
  = (Returns tt, snd (main_setup (loaded (json_body a_request)) empty_world)).
Proof. vm_compute. reflexivity. Qed.

Lemma main_setup_prepares_output_directory_witness :
  main_setup (loaded (json_body a_request)) empty_world
  = (Returns tt, snd (main_setup (loaded (json_body a_request)) empty_world)) /\
  (files (snd (main_setup (loaded (json_body a_request)) empty_world))
     = files empty_world /\
   "static" ∈ dirs (snd (main_setup (loaded (json_body a_request)) empty_world)) /\
   "static/generated"
     ∈ dirs (snd (main_setup (loaded (json_body a_request)) empty_world)) /\
   forall (D : Deps (list value) Z) w',
     dirs (snd (main_setup (loaded (json_body a_request)) empty_world)) ⊆ dirs w' ->
     makedirs D "static/generated" w'
     = (Returns tt, emit (EvMakedirs "static/generated") w')).
Proof.
  split; [exact loaded_main_setup |].
  exact (main_setup_prepares_output_directory
           (loaded (json_body a_request)) empty_world tt _ loaded_main_setup).
Defined.

Lemma saved_audio_is_model_output_witness :
  try_block (loaded (json_body a_request)) a_model a_processor empty_world
  = (Returns (success_response "generated_music_20240517_090307.wav"),
     snd (generate_music (loaded (json_body a_request)) empty_world)) /\
  exists description duration w1 inputs w2 audio on_cpu samples,
    read_input (loaded (json_body a_request)) empty_world
      = (Returns (description, duration), w1) /\
    process_text (loaded (json_body a_request)) a_processor description w1
      = (Returns inputs, w2) /\
    generate a_model (generate_kwargs inputs duration) = Returns audio /\
    cpu (loaded (json_body a_request)) audio = Returns on_cpu /\
    squeeze0 (loaded (json_body a_request)) on_cpu = Returns samples /\
    files (snd (generate_music (loaded (json_body a_request)) empty_world))
      !! ("static/generated/" ++ filename_of (now (loaded (json_body a_request))))
      = Some (Wav samples (sampling_rate a_model)) /\
    trace (snd (generate_music (loaded (json_body a_request)) empty_world))
    = (trace w2
         ++ [EvLog INFO (Msg "Generating audio (this may take a while)...");
             EvGenerate (generate_kwargs inputs duration);
             EvNow; EvMakedirs "static/generated";
             EvLog INFO (Msg "Saving generated audio...");
             EvCpu audio; EvSqueeze on_cpu;
             EvSave ("static/generated/"
                       ++ filename_of (now (loaded (json_body a_request))))
               samples (sampling_rate a_model);
             EvLog INFO (Msg "Generation completed successfully!")])%list.
Proof.
  split; [exact loaded_try_block |].
  exact (saved_audio_is_model_output
           (loaded (json_body a_request)) a_model a_processor empty_world _ _
           loaded_try_block).
Defined.

Lemma dirname_of_joined_path_witness :
  "static/generated" <> "" /\
  ends_with_sep "static/generated" = false /\
  contains_char "/" "clip.wav" = false /\
  path_join "static/generated" ["clip.wav"]
    = "static/generated" ++ "/" ++ "clip.wav" /\
  dirname (path_join "static/generated" ["clip.wav"]) = "static/generated".
Proof.
  assert (H : "static/generated" <> "") by discriminate.
  split; [exact H |]. split; [reflexivity |]. split; [reflexivity |].
  exact (dirname_of_joined_path "static/generated" "clip.wav" H eq_refl eq_refl).
Defined.

Lemma server_error_is_a_logged_exception_witness :
  model (overloaded (json_body a_request)) = Some (failing_model out_of_memory) /\
  processor (overloaded (json_body a_request)) = Some a_processor /\
  generate_music (overloaded (json_body a_request)) empty_world
  = (Returns (error_response "CUDA out of memory"),
     snd (generate_music (overloaded (json_body a_request)) empty_world)) /\
  status_code (error_response "CUDA out of memory") = 500 /\
  exists e w1,
    try_block (overloaded (json_body a_request)) (failing_model out_of_memory)
      a_processor empty_world
    = (Raises e, w1) /\
    body (error_response "CUDA out of memory")
    = <["status" := VStr "error"]> (<["message" := VStr (exc_str e)]> ∅) /\
    snd (generate_music (overloaded (json_body a_request)) empty_world)
    = emit (EvLog ERROR (Msg ("Error during generation: " ++ exc_str e))) w1.
Proof.
  assert (Hrun : generate_music (overloaded (json_body a_request)) empty_world
                 = (Returns (error_response "CUDA out of memory"),
                    snd (generate_music (overloaded (json_body a_request))
                           empty_world)))
    by (vm_compute; reflexivity).
  split; [reflexivity |]. split; [reflexivity |]. split; [exact Hrun |].
  split; [reflexivity |].
  exact (server_error_is_a_logged_exception
           (overloaded (json_body a_request)) (failing_model out_of_memory)
           a_processor empty_world _ _ eq_refl eq_refl Hrun eq_refl).
Defined.
